(** * Duplicate-image detection engine (scripts/duplicate_checker.py)

    A shallow embedding of [DuplicateChecker]: image discovery, the
    SHA-256 / perceptual-hash index built by [check_duplicates], the backup
    mover and the report generator, followed by the properties of the
    engine that the specification states.

    Conventions of the embedding.
    - A [pathlib.Path] is kept in parsed form, the list of its [parts]
      (["/"] first for an absolute POSIX path); [str(p)] and [Path(s)] are
      inverse on such values and are not modelled separately.
    - A Python [dict] is an insertion-ordered association list without
      repeated keys: iteration order is observable in [check_duplicates]
      (the scan over [phash_map.keys()]) and in the report.
    - An exception is a [Raise] outcome; nothing in the class catches one
      except [calculate_phash].
    - The file system is a finite view [path -> option node]; a regular
      file is abstracted to what the two hashers compute from its bytes.
    - [print] calls are not modelled.  [generate_report] is the dictionary
      the method of that name builds; [save_report] writes it. *)

From Stdlib Require Import String Ascii ZArith Bool Arith Lia Permutation List.
Import ListNotations.

Set Implicit Arguments.

(* ------------------------------------------------------------------ *)
(** ** Exceptions *)

Inductive exn : Type :=
| OSError (where_ : list string)        (* IOError and its subclasses *)
| FileNotFoundError (where_ : list string)
| ValueError (where_ : list string)     (* Path.relative_to *)
| IndexError                            (* source_folders[0] on [] *)
| ShutilError (where_ : list string)    (* shutil.Error *)
| KeyError (key : string)               (* config[key] *)
| JSONDecodeError.                      (* json.load *)

Inductive outcome (A : Type) : Type :=
| Ok (a : A)
| Raise (e : exn).

Arguments Ok {A} a.
Arguments Raise {A} e.

Definition bind {A B : Type} (m : outcome A) (k : A -> outcome B) : outcome B :=
  match m with
  | Ok a => k a
  | Raise e => Raise e
  end.

Notation "x <- m ;; k" := (bind m (fun x => k))
  (at level 61, m at next level, right associativity).

(* ------------------------------------------------------------------ *)
(** ** Pure paths (pathlib) *)

Module PurePath.

Definition path : Type := list string.

Fixpoint parts_eqb (a b : path) : bool :=
  match a, b with
  | [], [] => true
  | x :: a', y :: b' => String.eqb x y && parts_eqb a' b'
  | _, _ => false
  end.

Definition is_absolute (p : path) : bool :=
  match p with
  | a :: _ => String.eqb a "/"
  | [] => false
  end.

(** [p.parent]: the root and the empty path are their own parent. *)
Definition parent (p : path) : path :=
  match p with
  | [a] => if String.eqb a "/" then p else []
  | _ => removelast p
  end.

(** [p.name]: the last component, empty for the root. *)
Definition name (p : path) : string :=
  match p with
  | [a] => if String.eqb a "/" then EmptyString else a
  | _ => last p EmptyString
  end.

Fixpoint is_prefix (a b : path) : bool :=
  match a, b with
  | [], _ => true
  | x :: a', y :: b' => String.eqb x y && is_prefix a' b'
  | _ :: _, [] => false
  end.

(** [p.relative_to(other)], [None] standing for its [ValueError]. *)
Definition relative_to (p other : path) : option path :=
  match other with
  | [] => if is_absolute p then None else Some p
  | _ => if is_prefix other p then Some (skipn (List.length other) p) else None
  end.

(** [a / b] *)
Definition joinpath (a b : path) : path :=
  if is_absolute b then b else a ++ b.

End PurePath.
Import PurePath.

(* ------------------------------------------------------------------ *)
(** ** Strings: [startswith] and the glob patterns of [rglob] *)

Definition startswith (s pre : string) : bool := String.prefix pre s.

(** [fnmatch]-style match of a whole name against a pattern with [*] and
    [?]; bracket classes are not modelled. *)
Fixpoint fnmatch (pat : string) : string -> bool :=
  match pat with
  | EmptyString => fun s => match s with EmptyString => true | _ => false end
  | String c pat' =>
      if Ascii.eqb c "*"%char then
        fix star (s : string) : bool :=
          fnmatch pat' s ||
          match s with
          | EmptyString => false
          | String _ s' => star s'
          end
      else if Ascii.eqb c "?"%char then
        fun s => match s with
                 | EmptyString => false
                 | String _ s' => fnmatch pat' s'
                 end
      else
        fun s => match s with
                 | EmptyString => false
                 | String c' s' => Ascii.eqb c c' && fnmatch pat' s'
                 end
  end.

(* ------------------------------------------------------------------ *)
(** ** Python dictionaries *)

Module PyDict.

Definition dict (V : Type) : Type := list (string * V).

Section Ops.
Variable V : Type.

Fixpoint get (d : dict V) (k : string) : option V :=
  match d with
  | [] => None
  | (k', v) :: d' => if String.eqb k' k then Some v else get d' k
  end.

(** [k in d] *)
Definition mem (k : string) (d : dict V) : bool :=
  match get d k with
  | Some _ => true
  | None => false
  end.

(** [d[k] = v]: an existing key keeps its position. *)
Fixpoint set (d : dict V) (k : string) (v : V) : dict V :=
  match d with
  | [] => [(k, v)]
  | (k', v') :: d' =>
      if String.eqb k' k then (k', v) :: d' else (k', v') :: set d' k v
  end.

Definition keys (d : dict V) : list string := map fst d.
Definition values (d : dict V) : list V := map snd d.
End Ops.

(** [d[k].append(x)] on a [defaultdict(list)]. *)
Definition append_to {A : Type} (d : dict (list A)) (k : string) (x : A)
  : dict (list A) :=
  set d k (match get d k with
           | Some l => l ++ [x]
           | None => [x]
           end).

(** [d.get(k, [])] *)
Definition members {A : Type} (d : dict (list A)) (k : string) : list A :=
  match get d k with
  | Some l => l
  | None => []
  end.

End PyDict.

(* ------------------------------------------------------------------ *)
(** ** File system *)

(** What the hashers see of a regular file: whether [open(..., "rb")]
    succeeds, the hex digest of its bytes, and the hex string of
    [imagehash.phash] when PIL can decode it. *)
Record file_data : Type := mk_file {
  readable : bool;
  sha256_hex : string;
  phash_hex : option string
}.

Inductive node : Type :=
| Dir
| File (d : file_data).

Definition filesystem : Type := path -> option node.

Definition is_root (p : path) : bool :=
  match p with
  | [] => true
  | [a] => String.eqb a "/"
  | _ => false
  end.

(** [p.exists()] *)
Definition path_exists (fs : filesystem) (p : path) : bool :=
  is_root p || match fs p with Some _ => true | None => false end.

(** [p.is_dir()] *)
Definition is_dir (fs : filesystem) (p : path) : bool :=
  is_root p || match fs p with Some Dir => true | _ => false end.

Definition fs_update (fs : filesystem) (p : path) (n : node) : filesystem :=
  fun q => if parts_eqb p q then Some n else fs q.

(** The non-empty prefixes of a path, shortest first, the path itself
    last: the directories [mkdir(parents=True)] goes through. *)
Fixpoint prefixes (p : path) : list path :=
  match p with
  | [] => []
  | a :: p' => [a] :: map (cons a) (prefixes p')
  end.

Definition is_file (fs : filesystem) (p : path) : bool :=
  match fs p with
  | Some (File _) => true
  | _ => false
  end.

(** A regular file sits at one of the proper ancestors of [p]: the
    operating system then cannot walk down to [p] and fails with
    [NotADirectoryError], before it looks at anything below that file. *)
Definition below_file (fs : filesystem) (p : path) : bool :=
  existsb (is_file fs) (prefixes (removelast p)).

(** [os.mkdir(p)] *)
Definition os_mkdir (fs : filesystem) (p : path) : outcome filesystem :=
  if path_exists fs p then Raise (OSError p)                  (* FileExistsError *)
  else if below_file fs p then Raise (OSError p)              (* NotADirectoryError *)
  else if negb (path_exists fs (parent p)) then Raise (FileNotFoundError p)
  else if negb (is_dir fs (parent p)) then Raise (OSError p)  (* NotADirectoryError *)
  else Ok (fs_update fs p Dir).

(** [p.mkdir(exist_ok=True)] without [parents]. *)
Definition mkdir_exist_ok (fs : filesystem) (p : path) : outcome filesystem :=
  match os_mkdir fs p with
  | Ok fs' => Ok fs'
  | Raise (FileNotFoundError q) => Raise (FileNotFoundError q)
  | Raise e => if is_dir fs p then Ok fs else Raise e
  end.

(** [p.mkdir(parents=True, exist_ok=True)]: pathlib first tries
    [os.mkdir]; on [FileNotFoundError] it creates the parent the same way
    and retries without [parents]; any other [OSError] is swallowed when
    [p] is a directory.  The recursion follows [p.parent], so
    [length p] units of fuel are enough. *)
Fixpoint mkdir_parents_fuel (fuel : nat) (fs : filesystem) (p : path)
  : outcome filesystem :=
  match os_mkdir fs p with
  | Ok fs' => Ok fs'
  | Raise (FileNotFoundError q) =>
      if parts_eqb (parent p) p then Raise (FileNotFoundError q)
      else
        match fuel with
        | O => Raise (FileNotFoundError q)
        | S fuel' =>
            fs1 <- mkdir_parents_fuel fuel' fs (parent p) ;;
            mkdir_exist_ok fs1 p
        end
  | Raise e => if is_dir fs p then Ok fs else Raise e
  end.

Definition mkdir_parents (fs : filesystem) (p : path) : outcome filesystem :=
  mkdir_parents_fuel (List.length p) fs p.

(** [os.rename(src, dst)] as [shutil.move] reaches it: everything at and
    below [src] is re-rooted at [dst], replacing what was there. *)
Definition os_rename (fs : filesystem) (src dst : path) : outcome filesystem :=
  if negb (path_exists fs src) then Raise (FileNotFoundError src)
  else if below_file fs dst then Raise (OSError dst)              (* NotADirectoryError *)
  else if negb (path_exists fs (parent dst)) then Raise (FileNotFoundError dst)
  else if negb (is_dir fs (parent dst)) then Raise (OSError dst)  (* NotADirectoryError *)
  else Ok (fun q =>
             if is_prefix dst q then fs (src ++ skipn (List.length dst) q)
             else if is_prefix src q then None
             else fs q).

(** [shutil.move(src, dst)]: into [dst] when it is a directory, onto it
    otherwise.  The copy-and-unlink fallback across devices reaches the
    same state and is not distinguished. *)
Definition shutil_move (fs : filesystem) (src dst : path) : outcome filesystem :=
  if is_dir fs dst then
    let real_dst := dst ++ [name src] in
    if path_exists fs real_dst then Raise (ShutilError real_dst)
    else os_rename fs src real_dst
  else os_rename fs src dst.

(** [open(p, "w")] followed by the writing of [data]: a regular file is
    created at [p], or the one that is there is replaced.  Write permission
    on an existing file is not modelled. *)
Definition open_write (fs : filesystem) (p : path) (data : file_data)
  : outcome filesystem :=
  if is_dir fs p then Raise (OSError p)                       (* IsADirectoryError *)
  else if below_file fs p then Raise (OSError p)              (* NotADirectoryError *)
  else if negb (path_exists fs (parent p)) then Raise (FileNotFoundError p)
  else if negb (is_dir fs (parent p)) then Raise (OSError p)  (* NotADirectoryError *)
  else Ok (fs_update fs p (File data)).

(* ------------------------------------------------------------------ *)
(** ** The engine *)

(** The parsed [config.json].  The four mandatory keys are fields; the
    optional key is [None] when the object has no such key. *)
Record Config : Type := mk_config {
  cfg_source_folders : list path;
  cfg_backup_dir : path;
  cfg_output_dir : path;
  cfg_image_extensions : list string;
  cfg_perceptual_hash_threshold : option Z
}.

(** The attributes of a [DuplicateChecker] instance. *)
Record DuplicateChecker : Type := mk_checker {
  source_folders : list path;
  backup_dir : path;
  output_dir : path;
  extensions : list string;
  phash_threshold : Z;
  exact_duplicates : PyDict.dict (list path);
  similar_duplicates : PyDict.dict (list path);
  sha256_map : PyDict.dict path;
  phash_map : PyDict.dict path
}.

Definition with_exact_duplicates (self : DuplicateChecker) d : DuplicateChecker :=
  mk_checker (source_folders self) (backup_dir self) (output_dir self)
    (extensions self) (phash_threshold self)
    d (similar_duplicates self) (sha256_map self) (phash_map self).

Definition with_similar_duplicates (self : DuplicateChecker) d : DuplicateChecker :=
  mk_checker (source_folders self) (backup_dir self) (output_dir self)
    (extensions self) (phash_threshold self)
    (exact_duplicates self) d (sha256_map self) (phash_map self).

Definition with_sha256_map (self : DuplicateChecker) d : DuplicateChecker :=
  mk_checker (source_folders self) (backup_dir self) (output_dir self)
    (extensions self) (phash_threshold self)
    (exact_duplicates self) (similar_duplicates self) d (phash_map self).

Definition with_phash_map (self : DuplicateChecker) d : DuplicateChecker :=
  mk_checker (source_folders self) (backup_dir self) (output_dir self)
    (extensions self) (phash_threshold self)
    (exact_duplicates self) (similar_duplicates self) (sha256_map self) d.

(** The attribute values set by [__init__]. *)
Definition new_checker (config : Config) : DuplicateChecker :=
  mk_checker
    (cfg_source_folders config)
    (cfg_backup_dir config)
    (cfg_output_dir config)
    (cfg_image_extensions config)
    (match cfg_perceptual_hash_threshold config with
     | Some t => t
     | None => 10%Z
     end)
    [] [] [] [].

(** Lines 24-37 of [__init__], from the configuration once its keys have
    been read: the attributes, and the backup directory created.  The
    whole of [__init__], with the loading of the file, is [construct]. *)
Definition init (config : Config) (fs : filesystem)
  : outcome (DuplicateChecker * filesystem) :=
  let self := new_checker config in
  fs' <- mkdir_parents fs (backup_dir self) ;;
  Ok (self, fs').

(** [calculate_sha256]: [open] raises on anything but a readable regular
    file, and nothing here catches it. *)
Definition calculate_sha256 (fs : filesystem) (file_path : path) : outcome string :=
  match fs file_path with
  | Some (File d) =>
      if readable d then Ok (sha256_hex d) else Raise (OSError file_path)
  | Some Dir => Raise (OSError file_path)
  | None => Raise (FileNotFoundError file_path)
  end.

(** [calculate_phash]: every exception becomes [None]. *)
Definition calculate_phash (fs : filesystem) (file_path : path) : option string :=
  match fs file_path with
  | Some (File d) => if readable d then phash_hex d else None
  | _ => None
  end.

(** [folder_path.rglob(pattern)] over the entries the operating system
    lists below [folder_path], in the order it lists them, for a pattern
    that is a single path component: the pattern is matched against the
    name of the entry.  A pattern with a [/] in it, which pathlib splits
    into components, and [**] are outside this model. *)
Definition rglob (listing : list path) (pattern : string) : list path :=
  filter (fun p => fnmatch pattern (name p)) listing.

Section Engine.

(** [imagehash.hex_to_hash(a) - imagehash.hex_to_hash(b)] *)
Variable distance : string -> string -> Z.

(** The entries below a directory, recursively, in the order the
    operating system enumerates them. *)
Variable walk : path -> list path.

Definition find_all_images (self : DuplicateChecker) (fs : filesystem)
  : list path :=
  flat_map
    (fun folder =>
       if negb (path_exists fs folder) then []
       else flat_map (fun ext => rglob (walk folder) ("*" ++ ext)%string)
                     (extensions self))
    (source_folders self).

(** Lines 81-85: the digest is either already a key of [sha256_map] or
    becomes one. *)
Definition record_digest (self : DuplicateChecker) (sha256 : string)
           (file_path : path) : DuplicateChecker :=
  if PyDict.mem sha256 (sha256_map self) then
    with_exact_duplicates self
      (PyDict.append_to (exact_duplicates self) sha256 file_path)
  else
    with_sha256_map self (PyDict.set (sha256_map self) sha256 file_path).

(** Lines 92-98: the [for ... break] over [phash_map.keys()]; the result
    is the key at which the loop broke. *)
Fixpoint scan_groups (threshold : Z) (phash : string) (existing : list string)
  : option string :=
  match existing with
  | [] => None
  | existing_phash :: rest =>
      if (distance phash existing_phash <=? threshold)%Z then Some existing_phash
      else scan_groups threshold phash rest
  end.

(** Lines 90-101. *)
Definition record_fingerprint (self : DuplicateChecker) (phash : string)
           (file_path : path) : DuplicateChecker :=
  match scan_groups (phash_threshold self) phash (PyDict.keys (phash_map self)) with
  | Some existing_phash =>
      with_similar_duplicates self
        (PyDict.append_to (similar_duplicates self) existing_phash file_path)
  | None =>
      with_phash_map self (PyDict.set (phash_map self) phash file_path)
  end.

(** The body of the loop of [check_duplicates] for one file. *)
Definition check_one (fs : filesystem) (self : DuplicateChecker)
           (file_path : path) : outcome DuplicateChecker :=
  sha256 <- calculate_sha256 fs file_path ;;
  let self1 := record_digest self sha256 file_path in
  match calculate_phash fs file_path with
  | Some phash =>
      if String.eqb phash "" then Ok self1      (* [if phash:] *)
      else Ok (record_fingerprint self1 phash file_path)
  | None => Ok self1
  end.

Fixpoint check_duplicates (fs : filesystem) (self : DuplicateChecker)
         (image_files : list path) : outcome DuplicateChecker :=
  match image_files with
  | [] => Ok self
  | file_path :: rest =>
      self' <- check_one fs self file_path ;;
      check_duplicates fs self' rest
  end.

(** The body of the inner loop of [backup_and_remove_duplicates]. *)
Definition move_duplicate (self : DuplicateChecker) (backup_subdir : path)
           (acc : nat * filesystem) (dup_file : path)
  : outcome (nat * filesystem) :=
  let (moved_count, fs) := acc in
  let source := dup_file in
  if path_exists fs source then
    match source_folders self with
    | [] => Raise IndexError
    | first :: _ =>
        match relative_to source (parent first) with
        | None => Raise (ValueError source)
        | Some relative_path =>
            let dest := joinpath backup_subdir relative_path in
            fs1 <- mkdir_parents fs (parent dest) ;;
            fs2 <- shutil_move fs1 source dest ;;
            Ok (S moved_count, fs2)
        end
    end
  else Ok acc.

Fixpoint move_all (self : DuplicateChecker) (backup_subdir : path)
         (acc : nat * filesystem) (files : list path)
  : outcome (nat * filesystem) :=
  match files with
  | [] => Ok acc
  | dup_file :: rest =>
      acc' <- move_duplicate self backup_subdir acc dup_file ;;
      move_all self backup_subdir acc' rest
  end.

(** [timestamp] is [datetime.now().strftime("%Y%m%d_%H%M%S")].  The two
    nested loops visit the duplicate lists in dictionary order, which is
    one pass over their concatenation. *)
Definition backup_and_remove_duplicates (self : DuplicateChecker)
           (timestamp : string) (fs : filesystem)
  : outcome (nat * path * filesystem) :=
  let backup_subdir := joinpath (backup_dir self) [("duplicates_" ++ timestamp)%string] in
  fs0 <- mkdir_parents fs backup_subdir ;;
  r <- move_all self backup_subdir (O, fs0)
         (List.concat (PyDict.values (exact_duplicates self))) ;;
  Ok (fst r, backup_subdir, snd r).

(** [d.get(k, "Unknown")] *)
Inductive origin : Type :=
| Path (p : path)
| Unknown.

Definition get_or_unknown (d : PyDict.dict path) (k : string) : origin :=
  match PyDict.get d k with
  | Some p => Path p
  | None => Unknown
  end.

Record exact_entry : Type := mk_exact {
  original : origin;
  duplicates : list path
}.

Record similar_entry : Type := mk_similar {
  similar_original : origin;
  similar_images : list path
}.

Record Report : Type := mk_report {
  timestamp : string;
  total_images_scanned : nat;
  exact_duplicates_count : nat;
  similar_duplicates_count : nat;
  report_exact_duplicates : PyDict.dict exact_entry;
  report_similar_duplicates : PyDict.dict similar_entry
}.

(** [sum(len(v) for v in d.values())] *)
Definition total_len (d : PyDict.dict (list path)) : nat :=
  list_sum (map (@List.length path) (PyDict.values d)).

(** The [report] dictionary built by [generate_report]; [now] is
    [datetime.now().isoformat()]. *)
Definition generate_report (self : DuplicateChecker) (now : string) : Report :=
  mk_report
    now
    (List.length (sha256_map self) + total_len (exact_duplicates self))
    (total_len (exact_duplicates self))
    (total_len (similar_duplicates self))
    (map (fun kv : string * list path =>
            (fst kv, mk_exact (get_or_unknown (sha256_map self) (fst kv)) (snd kv)))
         (exact_duplicates self))
    (map (fun kv : string * list path =>
            (fst kv, mk_similar (get_or_unknown (phash_map self) (fst kv)) (snd kv)))
         (similar_duplicates self)).

(** What the hashers would see of the file [json.dump] writes for a
    report. *)
Variable report_file : Report -> file_data.

(** Lines 152-156 of [generate_report]: the dictionary is written to
    [output_dir / "duplicate_report.json"], whose path is returned. *)
Definition save_report (self : DuplicateChecker) (report : Report)
           (fs : filesystem) : outcome (path * filesystem) :=
  let report_path := joinpath (output_dir self) ["duplicate_report.json"%string] in
  fs' <- open_write fs report_path (report_file report) ;;
  Ok (report_path, fs').

(** [run]: discovery, scan, relocation when there is an exact duplicate,
    report.  The image list goes from [find_all_images] to
    [check_duplicates] as it is. *)
Definition run (self : DuplicateChecker) (fs : filesystem)
           (stamp now : string)
  : outcome (DuplicateChecker * filesystem * Report) :=
  let image_files := find_all_images self fs in
  self' <- check_duplicates fs self image_files ;;
  let exact_count := total_len (exact_duplicates self') in
  fs' <- (if 0 <? exact_count then
            r <- backup_and_remove_duplicates self' stamp fs ;;
            Ok (snd r)
          else Ok fs) ;;
  let report := generate_report self' now in
  saved <- save_report self' report fs' ;;
  Ok (self', snd saved, report).

End Engine.




(* ------------------------------------------------------------------ *)
(** ** A concrete world, for evaluating the engine *)

(** The distance of [imagehash] on hex strings of one length: the number
    of bit positions at which the two integers differ. *)
Module Imagehash.

Definition hex_digit (c : ascii) : Z :=
  let n := Z.of_nat (nat_of_ascii c) in
  if ((48 <=? n) && (n <=? 57))%Z then (n - 48)%Z
  else if ((97 <=? n) && (n <=? 102))%Z then (n - 87)%Z
  else if ((65 <=? n) && (n <=? 70))%Z then (n - 55)%Z
  else 0%Z.

Fixpoint int16 (acc : Z) (s : string) : Z :=
  match s with
  | EmptyString => acc
  | String c s' => int16 (16 * acc + hex_digit c)%Z s'
  end.

Fixpoint popcount (p : positive) : Z :=
  match p with
  | xH => 1%Z
  | xO p' => popcount p'
  | xI p' => (1 + popcount p')%Z
  end.

Definition hamming (a b : string) : Z :=
  match Z.lxor (int16 0 a) (int16 0 b) with
  | Zpos p => popcount p
  | _ => 0%Z
  end.

End Imagehash.

(** A file system given by its finitely many entries. *)
Fixpoint fs_of (entries : list (path * node)) : filesystem :=
  match entries with
  | [] => fun _ => None
  | (p, n) :: rest => fun q => if parts_eqb p q then Some n else fs_of rest q
  end.

Definition image (digest phash : string) : node :=
  File (mk_file true digest (Some phash)).


(* ------------------------------------------------------------------ *)
(** ** Vocabulary of the properties *)

(** *** The perceptual step

    [st] is the index before a file is classified and [st'] the index
    after it.  In both cases the scan is over the keys of [phash_map] in
    insertion order. *)

(** The file joined the first group whose key is within [T]. *)
Definition joins_first_match (distance : string -> string -> Z) (T : Z) (phash : string) (file_path : path)
           (st st' : DuplicateChecker) : Prop :=
  exists before k after,
    PyDict.keys (phash_map st) = before ++ k :: after /\
    (forall k', In k' before -> (T < distance phash k')%Z) /\
    (distance phash k <= T)%Z /\
    PyDict.get (similar_duplicates st') k
      = Some (PyDict.members (similar_duplicates st) k ++ [file_path]) /\
    (forall k', k <> k' ->
       PyDict.get (similar_duplicates st') k' = PyDict.get (similar_duplicates st) k') /\
    phash_map st' = phash_map st.

(** No key is within [T]; the file became the original of the group
    keyed by its own fingerprint, a new last group when the key is new. *)
Definition opens_new_group (distance : string -> string -> Z) (T : Z) (phash : string) (file_path : path)
           (st st' : DuplicateChecker) : Prop :=
  (forall k, In k (PyDict.keys (phash_map st)) -> (T < distance phash k)%Z) /\
  similar_duplicates st' = similar_duplicates st /\
  PyDict.get (phash_map st') phash = Some file_path /\
  (forall k', phash <> k' ->
     PyDict.get (phash_map st') k' = PyDict.get (phash_map st) k') /\
  (~ In phash (PyDict.keys (phash_map st)) ->
     phash_map st' = phash_map st ++ [(phash, file_path)]).

(** The configuration attributes are never assigned during the scan. *)
Definition same_settings (a b : DuplicateChecker) : Prop :=
  source_folders a = source_folders b /\
  backup_dir a = backup_dir b /\
  output_dir a = output_dir b /\
  extensions a = extensions b /\
  phash_threshold a = phash_threshold b.


(** *** Canonical and listed paths *)

Definition canonical_by_digest (st : DuplicateChecker) : list path :=
  PyDict.values (sha256_map st).

Definition canonical_by_group (st : DuplicateChecker) : list path :=
  PyDict.values (phash_map st).

Definition listed_duplicates (st : DuplicateChecker) : list path :=
  List.concat (PyDict.values (exact_duplicates st)).

Definition listed_similar (st : DuplicateChecker) : list path :=
  List.concat (PyDict.values (similar_duplicates st)).

(** Every path the index holds has been scanned ([seen]), and inside each
    of the two classifications an original is not a member. *)
Definition index_inv (seen : list path) (st : DuplicateChecker) : Prop :=
  (forall p, In p (canonical_by_digest st) -> In p seen) /\
  (forall p, In p (listed_duplicates st) -> In p seen) /\
  (forall p, In p (canonical_by_group st) -> In p seen) /\
  (forall p, In p (listed_similar st) -> In p seen) /\
  (forall p, In p (canonical_by_digest st) -> ~ In p (listed_duplicates st)) /\
  (forall p, In p (canonical_by_group st) -> ~ In p (listed_similar st)).

(** Files that hash alike decode alike: they hold the same bytes. *)
Definition same_bytes_same_fingerprint (fs : filesystem) : Prop :=
  forall p q d,
    calculate_sha256 fs p = Ok d -> calculate_sha256 fs q = Ok d ->
    calculate_phash fs p = calculate_phash fs q.

(** The canonical file of a digest has that digest; every scanned file
    with a fingerprint has a group key within [T]; no group original is
    an exact duplicate. *)
Definition group_inv (distance : string -> string -> Z) (fs : filesystem) (T : Z)
           (seen : list path) (st : DuplicateChecker) : Prop :=
  phash_threshold st = T /\
  (forall d c, PyDict.get (sha256_map st) d = Some c ->
               In c seen /\ calculate_sha256 fs c = Ok d) /\
  (forall q ph, In q seen -> calculate_phash fs q = Some ph -> ph <> EmptyString ->
                exists k, In k (PyDict.keys (phash_map st)) /\ (distance ph k <= T)%Z) /\
  (forall p, In p (canonical_by_group st) -> ~ In p (listed_duplicates st)).

(* ------------------------------------------------------------------ *)
(** ** Scenarios *)

(** Three images in one source folder: [a.jpg] and [b.jpg] hold the same
    bytes, [c.jpg] differs from them in one bit of its fingerprint. *)
Module Scenario.

Definition root : path := ["/"; "data"; "images"]%string.
Definition a_jpg : path := root ++ ["a.jpg"%string].
Definition b_jpg : path := root ++ ["b.jpg"%string].
Definition c_jpg : path := root ++ ["c.jpg"%string].

Definition disk : filesystem :=
  fs_of [ (["/"; "data"]%string, Dir);
          (["/"; "data"; "out"]%string, Dir);
          (root, Dir);
          (a_jpg, image "d1" "ff00ff00ff00ff00");
          (b_jpg, image "d1" "ff00ff00ff00ff00");
          (c_jpg, image "d2" "ff00ff00ff00ff01") ].

Definition config : Config :=
  mk_config [root]
            ["/"; "data"; "backup"]%string
            ["/"; "data"; "out"]%string
            [".jpg"%string]
            None.

Definition listing (folder : path) : list path :=
  if parts_eqb folder root then [a_jpg; b_jpg; c_jpg] else [].

(** The same entries, enumerated in the opposite order. *)
Definition listing_reversed (folder : path) : list path :=
  if parts_eqb folder root then [c_jpg; b_jpg; a_jpg] else [].

(** The folder with a macOS resource fork next to [a.jpg]. *)
Definition fork_jpg : path := root ++ ["._a.jpg"%string].

Definition disk_with_fork : filesystem :=
  fs_update disk fork_jpg (File (mk_file true "d0" None)).

Definition listing_with_fork (folder : path) : list path :=
  if parts_eqb folder root then [fork_jpg; a_jpg; b_jpg; c_jpg] else [].

(** The folder with an image that cannot be opened for reading. *)
Definition locked_jpg : path := root ++ ["0.jpg"%string].

Definition disk_with_locked : filesystem :=
  fs_update disk locked_jpg (File (mk_file false "d3" (Some "0000000000000000"%string))).

Definition listing_with_locked (folder : path) : list path :=
  if parts_eqb folder root then [locked_jpg; a_jpg; b_jpg; c_jpg] else [].

(** The index once [a.jpg] alone has been classified. *)
Definition after_a : DuplicateChecker :=
  with_phash_map
    (with_sha256_map (new_checker config) [("d1"%string, a_jpg)])
    [("ff00ff00ff00ff00"%string, a_jpg)].

(** The same folder scanned with a threshold no distance can meet. *)
Definition strict_config : Config :=
  mk_config [root]
            ["/"; "data"; "backup"]%string
            ["/"; "data"; "out"]%string
            [".jpg"%string]
            (Some (-1)%Z).

(** The index after the three files, and the disk after the mover. *)
Definition after_abc : DuplicateChecker :=
  with_similar_duplicates
    (with_exact_duplicates
       (with_phash_map
          (with_sha256_map (new_checker config)
             [("d1"%string, a_jpg); ("d2"%string, c_jpg)])
          [("ff00ff00ff00ff00"%string, a_jpg)])
       [("d1"%string, [b_jpg])])
    [("ff00ff00ff00ff00"%string, [b_jpg; c_jpg])].

Definition quarantine (stamp : string) : path :=
  ["/"; "data"; "backup"; ("duplicates_" ++ stamp)]%string.

Definition disk_after_backup : filesystem :=
  match backup_and_remove_duplicates after_abc "20240101_000000" disk with
  | Ok r => snd r
  | Raise _ => disk
  end.

End Scenario.

(** Two source roots that are not siblings. *)
Module TwoRoots.

Definition root_x : path := ["/"; "data"; "a"; "x"]%string.
Definition root_y : path := ["/"; "data"; "b"; "y"]%string.
Definition first_jpg : path := root_x ++ ["0.jpg"%string].
Definition second_jpg : path := root_x ++ ["1.jpg"%string].

Definition disk : filesystem :=
  fs_of [ (["/"; "data"]%string, Dir);
          (["/"; "data"; "a"]%string, Dir);
          (["/"; "data"; "b"]%string, Dir);
          (root_x, Dir);
          (root_y, Dir);
          (first_jpg, image "d1" "ff00ff00ff00ff00");
          (second_jpg, image "d1" "ff00ff00ff00ff00") ].

Definition config : Config :=
  mk_config [root_x; root_y]
            ["/"; "data"; "backup"]%string
            ["/"; "data"; "out"]%string
            [".jpg"%string]
            None.


Definition quarantine : path :=
  ["/"; "data"; "backup"; "duplicates_20240101_000000"]%string.

End TwoRoots.

(* ------------------------------------------------------------------ *)
(** ** Vocabulary for the file system *)






(** [fs'] is [fs] with, possibly, new directories at prefixes of [p]. *)
Definition only_adds_dirs (fs fs' : filesystem) (p : path) : Prop :=
  forall q, fs' q = fs q \/ (fs q = None /\ fs' q = Some Dir /\ is_prefix q p = true).

(* ------------------------------------------------------------------ *)
(** ** Vocabulary for the further properties *)


(** [calculate_sha256] returns [d] for the file at [p]. *)
Definition digest_is (fs : filesystem) (d : string) (p : path) : bool :=
  match calculate_sha256 fs p with
  | Ok s => String.eqb s d
  | Raise _ => false
  end.

(** [calculate_phash] returns a string that passes [if phash:]. *)
Definition has_fingerprint (fs : filesystem) (p : path) : bool :=
  match calculate_phash fs p with
  | Some ph => negb (String.eqb ph "")
  | None => false
  end.

(** The index after the scan of the folder with the resource fork, which
    PIL cannot decode. *)
Definition after_fork_scan : DuplicateChecker :=
  Eval vm_compute in
    match check_duplicates Imagehash.hamming Scenario.disk_with_fork
            (new_checker Scenario.config)
            [Scenario.fork_jpg; Scenario.a_jpg; Scenario.b_jpg; Scenario.c_jpg] with
    | Ok st => st
    | Raise _ => new_checker Scenario.config
    end.

(** The two roots of [TwoRoots] with a third copy of the image below the
    second root, and the index after the scan of the three files. *)
Definition third_jpg : path := TwoRoots.root_y ++ ["2.jpg"%string].

Definition disk_with_third : filesystem :=
  fs_update TwoRoots.disk third_jpg (image "d1" "ff00ff00ff00ff00").

Definition after_third_scan : DuplicateChecker :=
  Eval vm_compute in
    match check_duplicates Imagehash.hamming disk_with_third
            (new_checker TwoRoots.config)
            [TwoRoots.first_jpg; TwoRoots.second_jpg; third_jpg] with
    | Ok st => st
    | Raise _ => new_checker TwoRoots.config
    end.


(** The file a report is written as, for the runs of the scenarios: text
    that PIL cannot decode. *)
Definition json_file (report : Report) : file_data :=
  mk_file true "report" None.

(** The path of the report file of the scenarios. *)
Definition report_json : path := ["/"; "data"; "out"; "duplicate_report.json"]%string.

(** [disk_with_third] with a fourth copy below the first root, and the
    index after the scan of the four files. *)
Definition fourth_jpg : path := TwoRoots.root_x ++ ["3.jpg"%string].

Definition disk_with_fourth : filesystem :=
  fs_update disk_with_third fourth_jpg (image "d1" "ff00ff00ff00ff00").

Definition after_fourth_scan : DuplicateChecker :=
  Eval vm_compute in
    match check_duplicates Imagehash.hamming disk_with_fourth
            (new_checker TwoRoots.config)
            [TwoRoots.first_jpg; TwoRoots.second_jpg; third_jpg; fourth_jpg] with
    | Ok st => st
    | Raise _ => new_checker TwoRoots.config
    end.
(* ================================================================== *)
(** * Properties *)

Unset Implicit Arguments.

(** ** Dictionaries *)

Module PyDictFacts.
Import PyDict.

Section Facts.
Variable V : Type.
Implicit Types (d : dict V) (k : string) (v : V).

Lemma get_set_same d k v : get (set d k v) k = Some v.
Proof.
  induction d as [|[k' v'] d IH]; simpl.
  - now rewrite String.eqb_refl.
  - destruct (String.eqb k' k) eqn:E; simpl; rewrite E; auto.
Qed.

Lemma get_set_other d k k' v : k <> k' -> get (set d k v) k' = get d k'.
Proof.
  intros Hne. induction d as [|[k0 v0] d IH]; simpl.
  - destruct (String.eqb_spec k k'); congruence.
  - destruct (String.eqb_spec k0 k) as [->|Hk]; simpl.
    + destruct (String.eqb_spec k k'); congruence.
    + now rewrite IH.
Qed.

Lemma mem_true_iff k d : mem k d = true <-> In k (keys d).
Proof.
  unfold mem, keys. induction d as [|[k0 v0] d IH]; simpl.
  - split; [discriminate | tauto].
  - destruct (String.eqb_spec k0 k) as [->|Hk].
    + split; auto.
    + rewrite IH. split; auto. intros [H|H]; [congruence | assumption].
Qed.

Lemma mem_false_iff k d : mem k d = false <-> ~ In k (keys d).
Proof.
  rewrite <- mem_true_iff. destruct (mem k d); split; congruence.
Qed.

Lemma set_present d k v :
  In k (keys d) -> keys (set d k v) = keys d /\ List.length (set d k v) = List.length d.
Proof.
  unfold keys. induction d as [|[k0 v0] d IH]; simpl; [tauto|].
  intros Hin. destruct (String.eqb_spec k0 k) as [->|Hk]; simpl; auto.
  destruct Hin as [H|H]; [congruence|].
  destruct (IH H) as [-> ->]. auto.
Qed.

Lemma set_fresh d k v : ~ In k (keys d) -> set d k v = d ++ [(k, v)].
Proof.
  unfold keys. induction d as [|[k0 v0] d IH]; simpl; auto.
  intros Hn. destruct (String.eqb_spec k0 k) as [->|Hk]; [tauto|].
  rewrite IH; tauto.
Qed.

Lemma in_values_set d k v x :
  In x (values (set d k v)) -> x = v \/ In x (values d).
Proof.
  unfold values. induction d as [|[k0 v0] d IH]; simpl.
  - intros [H|[]]; auto.
  - destruct (String.eqb k0 k); simpl; intros [H|H]; auto.
    destruct (IH H); auto.
Qed.

Lemma get_in_values d k v : get d k = Some v -> In v (values d).
Proof.
  unfold values. induction d as [|[k0 v0] d IH]; simpl; [discriminate|].
  destruct (String.eqb k0 k); [intros [= ->]; auto | auto].
Qed.

Lemma get_some_mem d k v : get d k = Some v -> mem k d = true.
Proof. unfold mem. now intros ->. Qed.

Lemma mem_false_get d k : mem k d = false -> get d k = None.
Proof. unfold mem. destruct (get d k); [discriminate | reflexivity]. Qed.
End Facts.

Section Lists.
Variable A : Type.
Implicit Types (d : dict (list A)) (k : string) (x y : A).

Lemma get_append_same d k x :
  get (append_to d k x) k = Some (members d k ++ [x]).
Proof.
  unfold append_to, members. rewrite get_set_same. now destruct (get d k).
Qed.

Lemma get_append_other d k k' x :
  k <> k' -> get (append_to d k x) k' = get d k'.
Proof. intros. unfold append_to. now apply get_set_other. Qed.

Lemma in_concat_set d k (l : list A) y :
  In y (List.concat (values (set d k l))) ->
  In y l \/ In y (List.concat (values d)).
Proof.
  rewrite !in_concat. intros (l0 & Hl0 & Hy).
  apply in_values_set in Hl0 as [->|Hl0]; eauto.
Qed.

Lemma in_concat_append d k x y :
  In y (List.concat (values (append_to d k x))) ->
  y = x \/ In y (List.concat (values d)).
Proof.
  unfold append_to. intros H. apply in_concat_set in H as [H|H]; auto.
  destruct (get d k) as [l|] eqn:E.
  - apply in_app_or in H as [H|[H|[]]]; auto.
    right. apply in_concat. exists l. split; auto.
    eapply get_in_values; eauto.
  - destruct H as [H|[]]; auto.
Qed.

Lemma sum_len_set d k (l : list A) :
  list_sum (map (@List.length A) (values (set d k l)))
  + List.length (members d k)
  = list_sum (map (@List.length A) (values d)) + List.length l.
Proof.
  unfold members, values. induction d as [|[k0 l0] d IH]; simpl.
  - lia.
  - destruct (String.eqb k0 k); simpl; lia.
Qed.

Lemma sum_len_append d k x :
  list_sum (map (@List.length A) (values (append_to d k x)))
  = S (list_sum (map (@List.length A) (values d))).
Proof.
  unfold append_to.
  pose proof (sum_len_set d k (match get d k with
                               | Some l => l ++ [x] | None => [x] end)) as H.
  unfold members in H. destruct (get d k); simpl in H;
    rewrite ?length_app in H; simpl in H; lia.
Qed.
End Lists.

End PyDictFacts.
Import PyDictFacts.

(* ------------------------------------------------------------------ *)
(** ** The duplicate index *)

Section IndexProperties.

Variable distance : string -> string -> Z.
Variable fs : filesystem.

(** *** The scan *)

Lemma scan_groups_some T phash existing k :
  scan_groups distance T phash existing = Some k ->
  exists before after,
    existing = before ++ k :: after /\
    (forall k', In k' before -> (T < distance phash k')%Z) /\
    (distance phash k <= T)%Z.
Proof.
  induction existing as [|e rest IH]; simpl; [discriminate|].
  destruct (Z.leb_spec (distance phash e) T) as [Hle|Hgt].
  - intros [= ->]. exists [], rest. repeat split; auto. intros ? [].
  - intros H. destruct (IH H) as (before & after & -> & Hb & Hk).
    exists (e :: before), after. repeat split; auto.
    intros k' [<-|Hin]; auto.
Qed.

Lemma scan_groups_none T phash existing :
  scan_groups distance T phash existing = None ->
  forall k, In k existing -> (T < distance phash k)%Z.
Proof.
  induction existing as [|e rest IH]; simpl; [intros _ ? []|].
  destruct (Z.leb_spec (distance phash e) T) as [Hle|Hgt]; [discriminate|].
  intros H k [<-|Hin]; auto.
Qed.

Lemma record_fingerprint_outcome st phash file_path :
  let st' := record_fingerprint distance st phash file_path in
  joins_first_match distance (phash_threshold st) phash file_path st st' \/
  opens_new_group distance (phash_threshold st) phash file_path st st'.
Proof.
  unfold record_fingerprint.
  destruct (scan_groups distance (phash_threshold st) phash
              (PyDict.keys (phash_map st))) as [k|] eqn:E; simpl.
  - left. destruct (scan_groups_some _ _ _ _ E) as (before & after & Hk & Hb & Hd).
    exists before, k, after. simpl. repeat split; auto.
    + apply get_append_same.
    + intros. now apply get_append_other.
  - right. repeat split; simpl.
    + now apply scan_groups_none.
    + apply get_set_same.
    + intros. now apply get_set_other.
    + apply set_fresh.
Qed.

(** *** The loop *)

Lemma check_duplicates_app self l1 l2 :
  check_duplicates distance fs self (l1 ++ l2)
  = (self' <- check_duplicates distance fs self l1 ;; check_duplicates distance fs self' l2).
Proof.
  revert self. induction l1 as [|f l1 IH]; intros self; simpl; auto.
  destruct (check_one distance fs self f) as [s|e]; simpl; auto.
Qed.

Lemma check_duplicates_snoc self pre st file_path :
  check_duplicates distance fs self pre = Ok st ->
  check_duplicates distance fs self (pre ++ [file_path]) = check_one distance fs st file_path.
Proof.
  intros H. rewrite check_duplicates_app, H. simpl.
  now destruct (check_one distance fs st file_path).
Qed.

Lemma check_one_settings st file_path st' :
  check_one distance fs st file_path = Ok st' -> same_settings st st'.
Proof.
  unfold check_one, bind.
  destruct (calculate_sha256 fs file_path) as [sha|e]; [|discriminate].
  assert (Hd : same_settings st (record_digest st sha file_path)).
  { unfold record_digest. destruct (PyDict.mem _ _); repeat split. }
  assert (Hf : forall p, same_settings st
                   (record_fingerprint distance (record_digest st sha file_path) p file_path)).
  { intros p. unfold record_fingerprint.
    destruct (scan_groups _ _ _ _); unfold same_settings in *; simpl; tauto. }
  destruct (calculate_phash fs file_path) as [p|];
    [destruct (String.eqb p "")|]; intros [= <-]; auto.
Qed.

Lemma check_duplicates_settings self files st :
  check_duplicates distance fs self files = Ok st -> same_settings self st.
Proof.
  revert self. induction files as [|f files IH]; intros self; simpl.
  - intros [= <-]. repeat split.
  - destruct (check_one distance fs self f) as [s|e] eqn:E; simpl; [|discriminate].
    intros H. apply check_one_settings in E. apply IH in H.
    unfold same_settings in *. intuition congruence.
Qed.

Lemma record_digest_groups st sha256 file_path :
  phash_map (record_digest st sha256 file_path) = phash_map st /\
  similar_duplicates (record_digest st sha256 file_path) = similar_duplicates st /\
  phash_threshold (record_digest st sha256 file_path) = phash_threshold st.
Proof. unfold record_digest. destruct (PyDict.mem _ _); simpl; auto. Qed.

Lemma record_fingerprint_digests st phash file_path :
  sha256_map (record_fingerprint distance st phash file_path) = sha256_map st /\
  exact_duplicates (record_fingerprint distance st phash file_path) = exact_duplicates st.
Proof. unfold record_fingerprint. destruct (scan_groups _ _ _ _); simpl; auto. Qed.

(** What one iteration does to a file that can be hashed: the digest
    step, then the perceptual step whenever there is a fingerprint. *)
Lemma check_one_hashed st file_path sha256 :
  calculate_sha256 fs file_path = Ok sha256 ->
  exists st',
    check_one distance fs st file_path = Ok st' /\
    sha256_map st' = sha256_map (record_digest st sha256 file_path) /\
    exact_duplicates st' = exact_duplicates (record_digest st sha256 file_path) /\
    match calculate_phash fs file_path with
    | Some phash =>
        if String.eqb phash "" then
          similar_duplicates st' = similar_duplicates st /\ phash_map st' = phash_map st
        else
          joins_first_match distance (phash_threshold st) phash file_path st st' \/
          opens_new_group distance (phash_threshold st) phash file_path st st'
    | None =>
        similar_duplicates st' = similar_duplicates st /\ phash_map st' = phash_map st
    end.
Proof.
  intros Hsha. unfold check_one. rewrite Hsha. simpl.
  destruct (record_digest_groups st sha256 file_path) as (Hp & Hs & Ht).
  destruct (calculate_phash fs file_path) as [phash|];
    [destruct (String.eqb phash "")|]; eexists; (split; [reflexivity|]); auto.
  destruct (record_fingerprint_digests (record_digest st sha256 file_path) phash file_path)
    as [-> ->].
  do 2 (split; [reflexivity|]).
  pose proof (record_fingerprint_outcome (record_digest st sha256 file_path) phash file_path)
    as H.
  simpl in H. unfold joins_first_match, opens_new_group in *.
  rewrite Hp, Hs, Ht in H. exact H.
Qed.

(** C2.  A file with a fingerprint, classified after the files [pre]: the
    keys of the group map are scanned in insertion order; the file is
    appended to the group of the first key at Hamming distance at most the
    configured threshold, no other group changing; when no key is that
    close, the file becomes the original of the group keyed by its own
    fingerprint. *)
Theorem check_duplicates_first_match self pre st file_path d phash :
  check_duplicates distance fs self pre = Ok st ->
  fs file_path = Some (File d) ->
  readable d = true ->
  phash_hex d = Some phash ->
  phash <> EmptyString ->
  exists st',
    check_duplicates distance fs self (pre ++ [file_path]) = Ok st' /\
    (joins_first_match distance (phash_threshold self) phash file_path st st' \/
     opens_new_group distance (phash_threshold self) phash file_path st st').
Proof.
  intros Hpre Hfile Hread Hph Hne.
  assert (Hsha : calculate_sha256 fs file_path = Ok (sha256_hex d)).
  { unfold calculate_sha256. now rewrite Hfile, Hread. }
  destruct (check_one_hashed st file_path _ Hsha) as (st' & Hst' & _ & _ & Hper).
  exists st'. rewrite (check_duplicates_snoc _ _ _ file_path Hpre). split; [assumption|].
  unfold calculate_phash in Hper. rewrite Hfile, Hread, Hph in Hper.
  apply String.eqb_neq in Hne. rewrite Hne in Hper.
  destruct (check_duplicates_settings _ _ _ Hpre) as (_ & _ & _ & _ & ->).
  exact Hper.
Qed.

(** C1, as the code has it.  A file whose digest is already a key of the
    canonical map is appended to that digest's duplicate list, the
    canonical map and the other lists staying as they were; the
    perceptual step then runs as for any other file: with a fingerprint
    the file joins the first group within the threshold or becomes the
    original of a group keyed by its fingerprint, without one the
    similarity structures are left alone. *)
Theorem exact_duplicate_is_still_compared self pre st file_path sha256 :
  check_duplicates distance fs self pre = Ok st ->
  calculate_sha256 fs file_path = Ok sha256 ->
  PyDict.mem sha256 (sha256_map st) = true ->
  exists st',
    check_duplicates distance fs self (pre ++ [file_path]) = Ok st' /\
    PyDict.get (exact_duplicates st') sha256
      = Some (PyDict.members (exact_duplicates st) sha256 ++ [file_path]) /\
    (forall k, sha256 <> k ->
       PyDict.get (exact_duplicates st') k = PyDict.get (exact_duplicates st) k) /\
    sha256_map st' = sha256_map st /\
    match calculate_phash fs file_path with
    | Some phash =>
        if String.eqb phash "" then
          similar_duplicates st' = similar_duplicates st /\ phash_map st' = phash_map st
        else
          joins_first_match distance (phash_threshold self) phash file_path st st' \/
          opens_new_group distance (phash_threshold self) phash file_path st st'
    | None =>
        similar_duplicates st' = similar_duplicates st /\ phash_map st' = phash_map st
    end.
Proof.
  intros Hpre Hsha Hmem.
  destruct (check_one_hashed st file_path _ Hsha) as (st' & Hst' & Hmap & Hdup & Hper).
  exists st'. rewrite (check_duplicates_snoc _ _ _ file_path Hpre). split; [assumption|].
  unfold record_digest in Hmap, Hdup. rewrite Hmem in Hmap, Hdup. simpl in Hmap, Hdup.
  rewrite Hdup, Hmap.
  split; [apply get_append_same|].
  split; [intros; now apply get_append_other|].
  split; [reflexivity|].
  destruct (check_duplicates_settings _ _ _ Hpre) as (_ & _ & _ & _ & ->).
  exact Hper.
Qed.

(** C10.  Built from a configuration without the key
    [perceptual_hash_threshold], the engine holds the threshold 10; the
    scan never changes it, and 10 is the bound of the first-match scan for
    every file that has a fingerprint. *)
Theorem default_threshold_is_ten config fs0 self fs1 :
  cfg_perceptual_hash_threshold config = None ->
  init config fs0 = Ok (self, fs1) ->
  phash_threshold self = 10%Z /\
  forall pre st,
    check_duplicates distance fs self pre = Ok st ->
    phash_threshold st = 10%Z /\
    forall file_path d phash,
      fs file_path = Some (File d) ->
      readable d = true ->
      phash_hex d = Some phash ->
      phash <> EmptyString ->
      exists st',
        check_duplicates distance fs self (pre ++ [file_path]) = Ok st' /\
        (joins_first_match distance 10 phash file_path st st' \/
         opens_new_group distance 10 phash file_path st st').
Proof.
  intros Hcfg Hinit. unfold init, bind in Hinit.
  destruct (mkdir_parents fs0 (backup_dir (new_checker config))); [|discriminate].
  injection Hinit as <- _.
  assert (H10 : phash_threshold (new_checker config) = 10%Z).
  { unfold new_checker. simpl. now rewrite Hcfg. }
  split; [assumption|]. intros pre st Hpre.
  destruct (check_duplicates_settings _ _ _ Hpre) as (_ & _ & _ & _ & Ht).
  rewrite H10 in Ht. split; [now symmetry|].
  intros file_path d phash Hfile Hread Hph Hne.
  assert (Hsha : calculate_sha256 fs file_path = Ok (sha256_hex d)).
  { unfold calculate_sha256. now rewrite Hfile, Hread. }
  destruct (check_one_hashed st file_path _ Hsha) as (st' & Hst' & _ & _ & Hper).
  exists st'. rewrite (check_duplicates_snoc _ _ _ file_path Hpre). split; [assumption|].
  unfold calculate_phash in Hper. rewrite Hfile, Hread, Hph in Hper.
  apply String.eqb_neq in Hne. rewrite Hne, <- Ht in Hper. exact Hper.
Qed.

End IndexProperties.

Lemma check_duplicates_first_match_witness :
  exists st',
    check_duplicates Imagehash.hamming Scenario.disk (new_checker Scenario.config)
      ([Scenario.a_jpg] ++ [Scenario.c_jpg]) = Ok st' /\
    (joins_first_match Imagehash.hamming (phash_threshold (new_checker Scenario.config))
       "ff00ff00ff00ff01" Scenario.c_jpg Scenario.after_a st' \/
     opens_new_group Imagehash.hamming (phash_threshold (new_checker Scenario.config))
       "ff00ff00ff00ff01" Scenario.c_jpg Scenario.after_a st').
Proof.
  apply (check_duplicates_first_match Imagehash.hamming Scenario.disk
           (new_checker Scenario.config) [Scenario.a_jpg] Scenario.after_a
           Scenario.c_jpg (mk_file true "d2" (Some "ff00ff00ff00ff01"%string))
           "ff00ff00ff00ff01");
    [reflexivity | reflexivity | reflexivity | reflexivity | discriminate].
Defined.

Lemma exact_duplicate_is_still_compared_witness :
  exists st',
    check_duplicates Imagehash.hamming Scenario.disk (new_checker Scenario.config)
      ([Scenario.a_jpg] ++ [Scenario.b_jpg]) = Ok st' /\
    PyDict.get (exact_duplicates st') "d1"
      = Some (PyDict.members (exact_duplicates Scenario.after_a) "d1" ++ [Scenario.b_jpg]) /\
    (forall k, "d1"%string <> k ->
       PyDict.get (exact_duplicates st') k
       = PyDict.get (exact_duplicates Scenario.after_a) k) /\
    sha256_map st' = sha256_map Scenario.after_a /\
    (joins_first_match Imagehash.hamming (phash_threshold (new_checker Scenario.config))
       "ff00ff00ff00ff00" Scenario.b_jpg Scenario.after_a st' \/
     opens_new_group Imagehash.hamming (phash_threshold (new_checker Scenario.config))
       "ff00ff00ff00ff00" Scenario.b_jpg Scenario.after_a st').
Proof.
  apply (exact_duplicate_is_still_compared Imagehash.hamming Scenario.disk
           (new_checker Scenario.config) [Scenario.a_jpg] Scenario.after_a
           Scenario.b_jpg "d1");
    reflexivity.
Defined.

(** C1 as the specification words it fails: [b.jpg] holds the bytes of
    [a.jpg], its digest is in the canonical map when it is classified, and
    it is nevertheless compared and appended to the similarity group that
    [a.jpg] opened. *)
Lemma exact_duplicate_joins_similarity_group :
  check_duplicates Imagehash.hamming Scenario.disk (new_checker Scenario.config)
    [Scenario.a_jpg] = Ok Scenario.after_a /\
  calculate_sha256 Scenario.disk Scenario.b_jpg = Ok "d1"%string /\
  PyDict.mem "d1" (sha256_map Scenario.after_a) = true /\
  PyDict.get (phash_map Scenario.after_a) "ff00ff00ff00ff00" = Some Scenario.a_jpg /\
  PyDict.get (similar_duplicates Scenario.after_a) "ff00ff00ff00ff00" = None /\
  exists st',
    check_duplicates Imagehash.hamming Scenario.disk (new_checker Scenario.config)
      [Scenario.a_jpg; Scenario.b_jpg] = Ok st' /\
    PyDict.get (exact_duplicates st') "d1" = Some [Scenario.b_jpg] /\
    PyDict.get (similar_duplicates st') "ff00ff00ff00ff00" = Some [Scenario.b_jpg].
Proof.
  repeat split; try reflexivity.
  eexists. repeat split; reflexivity.
Qed.

Lemma default_threshold_is_ten_witness :
  phash_threshold (new_checker Scenario.config) = 10%Z /\
  forall pre st,
    check_duplicates Imagehash.hamming Scenario.disk (new_checker Scenario.config) pre
      = Ok st ->
    phash_threshold st = 10%Z /\
    forall file_path d phash,
      Scenario.disk file_path = Some (File d) ->
      readable d = true ->
      phash_hex d = Some phash ->
      phash <> EmptyString ->
      exists st',
        check_duplicates Imagehash.hamming Scenario.disk (new_checker Scenario.config)
          (pre ++ [file_path]) = Ok st' /\
        (joins_first_match Imagehash.hamming 10 phash file_path st st' \/
         opens_new_group Imagehash.hamming 10 phash file_path st st').
Proof.
  apply (default_threshold_is_ten Imagehash.hamming Scenario.disk Scenario.config
           Scenario.disk (new_checker Scenario.config)
           (fs_update Scenario.disk (backup_dir (new_checker Scenario.config)) Dir));
    reflexivity.
Defined.

(* ------------------------------------------------------------------ *)
(** ** The report *)

Lemma report_exact_lengths (m : PyDict.dict path) (d : PyDict.dict (list path)) :
  list_sum
    (map (fun e => List.length (duplicates e))
       (PyDict.values
          (map (fun kv : string * list path =>
                  (fst kv, mk_exact (get_or_unknown m (fst kv)) (snd kv))) d)))
  = total_len d.
Proof.
  unfold total_len, PyDict.values. induction d as [|[k l] d IH]; simpl; auto.
Qed.

(** C7.  The exact groups of the report carry the duplicate lists of the
    index, digest by digest and in its order.  [exact_duplicates_count]
    is the sum of the lengths of the duplicate lists of the index, which
    is the sum of the lengths of the [duplicates] lists of the report's
    exact groups; [total_images_scanned] is the number of entries of the
    canonical map plus [exact_duplicates_count]. *)
Theorem generate_report_counts self now :
  let report := generate_report self now in
  map (fun group => (fst group, duplicates (snd group))) (report_exact_duplicates report)
  = exact_duplicates self /\
  exact_duplicates_count report
  = list_sum (map (@List.length path) (PyDict.values (exact_duplicates self))) /\
  exact_duplicates_count report
  = list_sum (map (fun e => List.length (duplicates e))
                (PyDict.values (report_exact_duplicates report))) /\
  total_images_scanned report
  = List.length (PyDict.keys (sha256_map self)) + exact_duplicates_count report.
Proof.
  simpl. rewrite report_exact_lengths. repeat split.
  - rewrite map_map. simpl.
    induction (exact_duplicates self) as [|[k l] d IH]; simpl; congruence.
  - unfold PyDict.keys. now rewrite length_map.
Qed.

(* ------------------------------------------------------------------ *)
(** ** Paths and the file system *)

Lemma parts_eqb_eq (a b : path) : parts_eqb a b = true <-> a = b.
Proof.
  revert b. induction a as [|x a IH]; intros [|y b]; simpl;
    try (split; [discriminate | congruence]); [tauto|].
  rewrite andb_true_iff, String.eqb_eq, IH. split.
  - intros [-> ->]. reflexivity.
  - intros [= -> ->]. auto.
Qed.

Lemma parts_eqb_refl (a : path) : parts_eqb a a = true.
Proof. now apply parts_eqb_eq. Qed.

Lemma parts_eqb_neq (a b : path) : parts_eqb a b = false <-> a <> b.
Proof.
  rewrite <- parts_eqb_eq. destruct (parts_eqb a b); split; congruence.
Qed.

Lemma is_prefix_iff (a b : path) : is_prefix a b = true <-> exists c, b = a ++ c.
Proof.
  revert b. induction a as [|x a IH]; intros b; simpl.
  - split; eauto.
  - destruct b as [|y b].
    + split; [discriminate | intros [c H]; discriminate].
    + rewrite andb_true_iff, String.eqb_eq, IH. split.
      * intros [-> [c ->]]. eauto.
      * intros [c [= -> ->]]. eauto.
Qed.

Lemma is_prefix_refl (a : path) : is_prefix a a = true.
Proof. apply is_prefix_iff. exists []. now rewrite app_nil_r. Qed.

Lemma is_prefix_app (a c : path) : is_prefix a (a ++ c) = true.
Proof. apply is_prefix_iff. eauto. Qed.

Lemma is_prefix_trans (a b c : path) :
  is_prefix a b = true -> is_prefix b c = true -> is_prefix a c = true.
Proof.
  rewrite !is_prefix_iff. intros [x ->] [y ->]. exists (x ++ y).
  now rewrite app_assoc.
Qed.


Lemma parent_not_root (p : path) : is_root p = false -> parent p = removelast p.
Proof.
  destruct p as [|a [|b p]]; simpl; try discriminate; auto.
  now intros ->.
Qed.

Lemma parent_split (p : path) :
  is_root p = false -> exists a, p = parent p ++ [a].
Proof.
  intros E. rewrite (parent_not_root _ E).
  destruct p as [|x p]; [discriminate|].
  exists (last (x :: p) EmptyString). apply app_removelast_last. discriminate.
Qed.


Lemma parent_is_prefix (p : path) : is_prefix (parent p) p = true.
Proof.
  destruct (is_root p) eqn:E.
  - destruct p as [|a [|b p]]; simpl in *; try discriminate; auto.
    rewrite E. simpl. now rewrite String.eqb_refl.
  - destruct (parent_split _ E) as [a H]. rewrite H at 2. apply is_prefix_app.
Qed.








Lemma path_exists_false fs p :
  path_exists fs p = false -> is_root p = false /\ fs p = None.
Proof.
  unfold path_exists. rewrite orb_false_iff. intros [-> H].
  destruct (fs p); [discriminate | auto].
Qed.


Lemma only_adds_dirs_refl fs p : only_adds_dirs fs fs p.
Proof. intros q. now left. Qed.

Lemma only_adds_dirs_trans fs fs1 fs2 p1 p2 :
  is_prefix p1 p2 = true ->
  only_adds_dirs fs fs1 p1 -> only_adds_dirs fs1 fs2 p2 -> only_adds_dirs fs fs2 p2.
Proof.
  intros Hp H1 H2 q. destruct (H2 q) as [E2|(N2 & D2 & P2)];
    destruct (H1 q) as [E1|(N1 & D1 & P1)].
  - left. congruence.
  - right. repeat split; try congruence. eapply is_prefix_trans; eauto.
  - right. repeat split; congruence.
  - congruence.
Qed.

Lemma os_mkdir_ok fs p fs' :
  os_mkdir fs p = Ok fs' ->
  path_exists fs p = false /\ is_dir fs (parent p) = true /\ fs' = fs_update fs p Dir.
Proof.
  unfold os_mkdir. destruct (path_exists fs p); [discriminate|].
  destruct (below_file fs p); [discriminate|].
  destruct (path_exists fs (parent p)); simpl; [|discriminate].
  destruct (is_dir fs (parent p)); simpl; [|discriminate].
  intros [= <-]. auto.
Qed.

Lemma fs_update_adds fs p :
  path_exists fs p = false ->
  only_adds_dirs fs (fs_update fs p Dir) p /\ is_dir (fs_update fs p Dir) p = true.
Proof.
  intros H. apply path_exists_false in H as [_ Hnone]. split.
  - intros q. unfold fs_update. destruct (parts_eqb p q) eqn:E; [|now left].
    apply parts_eqb_eq in E as <-. right. auto using is_prefix_refl.
  - unfold is_dir, fs_update. rewrite parts_eqb_refl. apply orb_true_r.
Qed.

Lemma mkdir_exist_ok_spec fs p fs' :
  mkdir_exist_ok fs p = Ok fs' ->
  only_adds_dirs fs fs' p /\ is_dir fs' p = true.
Proof.
  unfold mkdir_exist_ok. destruct (os_mkdir fs p) as [fs1|e] eqn:E.
  - intros [= <-]. apply os_mkdir_ok in E as (Hex & _ & ->).
    now apply fs_update_adds.
  - destruct e; try discriminate;
      (destruct (is_dir fs p) eqn:D; [|discriminate]); intros [= <-];
      auto using only_adds_dirs_refl.
Qed.

(** Whenever [mkdir(parents=True, exist_ok=True)] returns, its target is a
    directory and nothing but new directories on the way was added. *)
Lemma mkdir_parents_fuel_spec n : forall fs p fs',
  mkdir_parents_fuel n fs p = Ok fs' ->
  only_adds_dirs fs fs' p /\ is_dir fs' p = true.
Proof.
  induction n as [|n IH]; intros fs p fs'; simpl;
    destruct (os_mkdir fs p) as [fs1|e] eqn:E.
  - intros [= <-]. apply os_mkdir_ok in E as (Hex & _ & ->).
    now apply fs_update_adds.
  - destruct e; try (destruct (parts_eqb (parent p) p)); try discriminate;
      (destruct (is_dir fs p) eqn:D; [|discriminate]); intros [= <-];
      auto using only_adds_dirs_refl.
  - intros [= <-]. apply os_mkdir_ok in E as (Hex & _ & ->).
    now apply fs_update_adds.
  - destruct e; try (destruct (parts_eqb (parent p) p)); try discriminate;
      try ((destruct (is_dir fs p) eqn:D; [|discriminate]); intros [= <-];
           auto using only_adds_dirs_refl).
    unfold bind. destruct (mkdir_parents_fuel n fs (parent p)) as [fs1|e1] eqn:R;
      [|discriminate].
    intros H. apply IH in R as [R1 R2]. apply mkdir_exist_ok_spec in H as [H1 H2].
    split; [|assumption].
    eapply only_adds_dirs_trans; eauto using parent_is_prefix.
Qed.



(* ------------------------------------------------------------------ *)
(** ** The backup mover *)

Lemma move_all_absent self backup_subdir moved_count fs files :
  (forall dup_file, In dup_file files -> path_exists fs dup_file = false) ->
  move_all self backup_subdir (moved_count, fs) files = Ok (moved_count, fs).
Proof.
  induction files as [|f files IH]; intros H; simpl; auto.
  rewrite (H f (or_introl eq_refl)). simpl. apply IH.
  intros. apply H. now right.
Qed.

Lemma only_adds_dirs_files fs fs' p :
  only_adds_dirs fs fs' p -> forall q, is_file fs' q = is_file fs q.
Proof.
  intros H q. unfold is_file. destruct (H q) as [->|(-> & -> & _)]; reflexivity.
Qed.

(** C8.  An invocation of the mover that finds none of the duplicate paths
    in place (the state it tests is the one in which its quarantine
    directory has just been created) relocates nothing: [moved_count] is
    0, and the regular files are exactly those that were there before. *)
Theorem second_backup_moves_nothing self stamp fs fs0 :
  mkdir_parents fs (joinpath (backup_dir self) [("duplicates_" ++ stamp)%string]) = Ok fs0 ->
  (forall dup_file,
      In dup_file (List.concat (PyDict.values (exact_duplicates self))) ->
      path_exists fs0 dup_file = false) ->
  backup_and_remove_duplicates self stamp fs
  = Ok (0, joinpath (backup_dir self) [("duplicates_" ++ stamp)%string], fs0) /\
  forall q, is_file fs0 q = is_file fs q.
Proof.
  intros Hmk Habsent. unfold backup_and_remove_duplicates. rewrite Hmk. simpl.
  rewrite (move_all_absent _ _ _ _ _ Habsent). simpl. split; [reflexivity|].
  apply mkdir_parents_fuel_spec in Hmk as [Hadd _].
  eapply only_adds_dirs_files; eauto.
Qed.





Lemma second_backup_moves_nothing_witness :
  backup_and_remove_duplicates Scenario.after_abc "20240102_000000"
    Scenario.disk_after_backup
  = Ok (0, Scenario.quarantine "20240102_000000",
        fs_update Scenario.disk_after_backup (Scenario.quarantine "20240102_000000") Dir) /\
  forall q,
    is_file (fs_update Scenario.disk_after_backup
               (Scenario.quarantine "20240102_000000") Dir) q
    = is_file Scenario.disk_after_backup q.
Proof.
  apply (second_backup_moves_nothing Scenario.after_abc "20240102_000000"
           Scenario.disk_after_backup
           (fs_update Scenario.disk_after_backup
              (Scenario.quarantine "20240102_000000") Dir)).
  - reflexivity.
  - intros dup_file [<-|[]]. reflexivity.
Defined.

(* ------------------------------------------------------------------ *)
(** ** Discovery and the run *)


(** The scan [run] performs is over the list [find_all_images] returned,
    in that order. *)
Lemma run_scans_discovery_order
      distance walk report_file self fs stamp now st fs' report :
  run distance walk report_file self fs stamp now = Ok (st, fs', report) ->
  check_duplicates distance fs self (find_all_images walk self fs) = Ok st.
Proof.
  unfold run, bind.
  destruct (check_duplicates distance fs self (find_all_images walk self fs)) as [s|e];
    [|discriminate].
  destruct (0 <? total_len (exact_duplicates s));
    [destruct (backup_and_remove_duplicates s stamp fs)|]; try discriminate;
    destruct (save_report report_file s _ _); try discriminate;
    now intros [= -> _ _].
Qed.

(** C9, evaluated: a file named [._a.jpg] below a source folder is among
    the images [find_all_images] returns, and [run] classifies it. *)
Theorem find_all_images_keeps_resource_forks (report_file : Report -> file_data) :
  startswith (name Scenario.fork_jpg) "._" = true /\
  find_all_images Scenario.listing_with_fork (new_checker Scenario.config)
    Scenario.disk_with_fork
  = [Scenario.fork_jpg; Scenario.a_jpg; Scenario.b_jpg; Scenario.c_jpg] /\
  match run Imagehash.hamming Scenario.listing_with_fork report_file
          (new_checker Scenario.config)
          Scenario.disk_with_fork "20240101_000000" "2024-01-01T00:00:00" with
  | Ok (st, _, report) =>
      PyDict.get (sha256_map st) "d0" = Some Scenario.fork_jpg /\
      total_images_scanned report = 4
  | Raise _ => False
  end.
Proof.
  split; [vm_compute; reflexivity|]. split; [vm_compute; reflexivity|].
  vm_compute. split; reflexivity.
Qed.

(** C4, evaluated: the first image cannot be read; [calculate_sha256]
    raises, the scan stops there and so does [run], without a report. *)
Theorem unreadable_file_aborts_scan (report_file : Report -> file_data) :
  calculate_sha256 Scenario.disk_with_locked Scenario.locked_jpg
  = Raise (OSError Scenario.locked_jpg) /\
  check_duplicates Imagehash.hamming Scenario.disk_with_locked
    (new_checker Scenario.config)
    [Scenario.locked_jpg; Scenario.a_jpg; Scenario.b_jpg; Scenario.c_jpg]
  = Raise (OSError Scenario.locked_jpg) /\
  run Imagehash.hamming Scenario.listing_with_locked report_file
    (new_checker Scenario.config)
    Scenario.disk_with_locked "20240101_000000" "2024-01-01T00:00:00"
  = Raise (OSError Scenario.locked_jpg).
Proof. repeat split; vm_compute; reflexivity. Qed.

(** C6, evaluated: the same three files enumerated in two orders.  [run]
    sorts nothing, and the two runs disagree on which of the two identical
    files is the original and which one is moved away, and on the
    similarity groups. *)
Theorem run_depends_on_enumeration_order (report_file : Report -> file_data) :
  Permutation (Scenario.listing Scenario.root) (Scenario.listing_reversed Scenario.root) /\
  match run Imagehash.hamming Scenario.listing report_file
          (new_checker Scenario.config)
          Scenario.disk "20240101_000000" "2024-01-01T00:00:00",
        run Imagehash.hamming Scenario.listing_reversed report_file
          (new_checker Scenario.config)
          Scenario.disk "20240101_000000" "2024-01-01T00:00:00" with
  | Ok (_, fs1, report1), Ok (_, fs2, report2) =>
      report_exact_duplicates report1
      = [("d1"%string, mk_exact (Path Scenario.a_jpg) [Scenario.b_jpg])] /\
      report_exact_duplicates report2
      = [("d1"%string, mk_exact (Path Scenario.b_jpg) [Scenario.a_jpg])] /\
      PyDict.keys (report_similar_duplicates report1) = ["ff00ff00ff00ff00"%string] /\
      PyDict.keys (report_similar_duplicates report2) = ["ff00ff00ff00ff01"%string] /\
      is_file fs1 Scenario.a_jpg = true /\ is_file fs1 Scenario.b_jpg = false /\
      is_file fs2 Scenario.a_jpg = false /\ is_file fs2 Scenario.b_jpg = true
  | _, _ => False
  end.
Proof.
  split; [exact (Permutation_rev [Scenario.a_jpg; Scenario.b_jpg; Scenario.c_jpg])|].
  vm_compute. repeat split; reflexivity.
Qed.

(* ------------------------------------------------------------------ *)
(** ** Originals and members *)

Lemma in_keys_set (V : Type) (d : PyDict.dict V) (k k' : string) (v : V) :
  In k (PyDict.keys d) -> In k (PyDict.keys (PyDict.set d k' v)).
Proof.
  unfold PyDict.keys. induction d as [|[k0 v0] d IH]; simpl; [tauto|].
  destruct (String.eqb k0 k'); simpl; intros [H|H]; auto.
Qed.

Lemma in_keys_set_same (V : Type) (d : PyDict.dict V) (k : string) (v : V) :
  In k (PyDict.keys (PyDict.set d k v)).
Proof.
  apply mem_true_iff. eapply get_some_mem. apply get_set_same.
Qed.

(** One path enters one of two lists that were disjoint and within
    [seen]: they stay disjoint, within [seen] and the new path. *)
Lemma grow_disjoint (seen A B A' B' : list path) (f : path) :
  (forall p, In p A -> In p seen) ->
  (forall p, In p B -> In p seen) ->
  (forall p, In p A -> ~ In p B) ->
  ~ In f seen ->
  ((forall p, In p A' -> In p A) /\ (forall p, In p B' -> p = f \/ In p B)) \/
  ((forall p, In p A' -> p = f \/ In p A) /\ (forall p, In p B' -> In p B)) ->
  (forall p, In p A' -> In p (f :: seen)) /\
  (forall p, In p B' -> In p (f :: seen)) /\
  (forall p, In p A' -> ~ In p B').
Proof.
  intros HA HB Hd Hf [[H1 H2]|[H1 H2]]; repeat split; intros p Hp; simpl.
  - right. auto.
  - destruct (H2 p Hp) as [->|H]; auto.
  - intros Hq. destruct (H2 p Hq) as [->|H].
    + apply Hf. auto.
    + exact (Hd p (H1 p Hp) H).
  - destruct (H1 p Hp) as [->|H]; auto.
  - right. auto.
  - intros Hq. destruct (H1 p Hp) as [->|H].
    + apply Hf. auto.
    + exact (Hd p H (H2 p Hq)).
Qed.

Section CanonicalPaths.

Variable distance : string -> string -> Z.
Variable fs : filesystem.

Lemma record_digest_paths st sha256 f :
  ((forall p, In p (canonical_by_digest (record_digest st sha256 f)) ->
              In p (canonical_by_digest st)) /\
   (forall p, In p (listed_duplicates (record_digest st sha256 f)) ->
              p = f \/ In p (listed_duplicates st))) \/
  ((forall p, In p (canonical_by_digest (record_digest st sha256 f)) ->
              p = f \/ In p (canonical_by_digest st)) /\
   (forall p, In p (listed_duplicates (record_digest st sha256 f)) ->
              In p (listed_duplicates st))).
Proof.
  unfold record_digest, canonical_by_digest, listed_duplicates.
  destruct (PyDict.mem sha256 (sha256_map st)); simpl; [left|right]; split; auto.
  - intros p. apply in_concat_append.
  - intros p. apply in_values_set.
Qed.

Lemma record_fingerprint_paths st phash f :
  ((forall p, In p (canonical_by_group (record_fingerprint distance st phash f)) ->
              In p (canonical_by_group st)) /\
   (forall p, In p (listed_similar (record_fingerprint distance st phash f)) ->
              p = f \/ In p (listed_similar st))) \/
  ((forall p, In p (canonical_by_group (record_fingerprint distance st phash f)) ->
              p = f \/ In p (canonical_by_group st)) /\
   (forall p, In p (listed_similar (record_fingerprint distance st phash f)) ->
              In p (listed_similar st))).
Proof.
  unfold record_fingerprint, canonical_by_group, listed_similar.
  destruct (scan_groups distance (phash_threshold st) phash (PyDict.keys (phash_map st)));
    simpl; [left|right]; split; auto.
  - intros p. apply in_concat_append.
  - intros p. apply in_values_set.
Qed.

(** The state one iteration leaves, written out. *)
Lemma check_one_ok st f st' :
  check_one distance fs st f = Ok st' ->
  exists sha256,
    calculate_sha256 fs f = Ok sha256 /\
    st' = match calculate_phash fs f with
          | Some phash =>
              if String.eqb phash "" then record_digest st sha256 f
              else record_fingerprint distance (record_digest st sha256 f) phash f
          | None => record_digest st sha256 f
          end.
Proof.
  unfold check_one, bind. destruct (calculate_sha256 fs f) as [sha|e]; [|discriminate].
  intros H. exists sha. split; [reflexivity|].
  destruct (calculate_phash fs f) as [ph|]; [destruct (String.eqb ph "")|];
    now injection H as <-.
Qed.

Lemma check_one_index_inv seen st f st' :
  index_inv seen st -> ~ In f seen ->
  check_one distance fs st f = Ok st' ->
  index_inv (f :: seen) st'.
Proof.
  intros (I1 & I2 & I3 & I4 & I5 & I6) Hf H.
  apply check_one_ok in H as (sha & _ & ->).
  set (st1 := record_digest st sha f).
  assert (D : (forall p, In p (canonical_by_digest st1) -> In p (f :: seen)) /\
              (forall p, In p (listed_duplicates st1) -> In p (f :: seen)) /\
              (forall p, In p (canonical_by_digest st1) -> ~ In p (listed_duplicates st1))).
  { apply (grow_disjoint seen (canonical_by_digest st) (listed_duplicates st)); auto.
    apply record_digest_paths. }
  assert (G1 : canonical_by_group st1 = canonical_by_group st /\
               listed_similar st1 = listed_similar st).
  { unfold canonical_by_group, listed_similar, st1.
    destruct (record_digest_groups st sha f) as (-> & -> & _). auto. }
  assert (Keep : index_inv (f :: seen) st1).
  { destruct D as (D1 & D2 & D3), G1 as [G1 G2].
    unfold index_inv. rewrite G1, G2. repeat split; auto;
      intros p Hp; right; auto. }
  destruct (calculate_phash fs f) as [ph|]; [destruct (String.eqb ph "")|]; auto.
  set (st2 := record_fingerprint distance st1 ph f).
  assert (G : (forall p, In p (canonical_by_group st2) -> In p (f :: seen)) /\
              (forall p, In p (listed_similar st2) -> In p (f :: seen)) /\
              (forall p, In p (canonical_by_group st2) -> ~ In p (listed_similar st2))).
  { destruct G1 as [G1 G2].
    apply (grow_disjoint seen (canonical_by_group st1) (listed_similar st1)
             (canonical_by_group st2) (listed_similar st2) f).
    - rewrite G1. exact I3.
    - rewrite G2. exact I4.
    - rewrite G1, G2. exact I6.
    - exact Hf.
    - apply record_fingerprint_paths. }
  destruct D as (D1 & D2 & D3), G as (G3 & G4 & G5).
  unfold index_inv, canonical_by_digest, listed_duplicates in *.
  destruct (record_fingerprint_digests distance st1 ph f) as [E1 E2].
  fold st2 in E1, E2. rewrite E1, E2. repeat split; auto.
Qed.

(** The loop carries any property the iterations carry, the scanned
    paths being pairwise distinct. *)
Lemma check_duplicates_invariant (I : list path -> DuplicateChecker -> Prop) :
  (forall seen st f st',
      I seen st -> ~ In f seen -> check_one distance fs st f = Ok st' ->
      I (f :: seen) st') ->
  forall files seen st st',
    I seen st -> NoDup files -> (forall f, In f files -> ~ In f seen) ->
    check_duplicates distance fs st files = Ok st' ->
    exists seen', I seen' st'.
Proof.
  intros Hstep. induction files as [|f files IH]; intros seen st st' HI Hnd Hfresh; simpl.
  - intros [= <-]. eauto.
  - destruct (check_one distance fs st f) as [s|e] eqn:E; simpl; [|discriminate].
    inversion Hnd as [|? ? Hnotin Hnd']; subst.
    apply (IH (f :: seen) s st'); auto.
    + eapply Hstep; eauto. apply Hfresh. now left.
    + intros g Hg [<-|Hs]; [auto|]. apply (Hfresh g); [now right | assumption].
Qed.

Lemma index_inv_new config : index_inv [] (new_checker config).
Proof. repeat split; simpl; intros p []. Qed.

Section Consistent.

Variable T : Z.
Hypothesis distance_self : forall ph, (distance ph ph <= T)%Z.
Hypothesis consistent : same_bytes_same_fingerprint fs.

Lemma scan_groups_finds phash existing k :
  In k existing -> (distance phash k <= T)%Z ->
  scan_groups distance T phash existing <> None.
Proof.
  intros Hin Hle Hnone.
  pose proof (scan_groups_none distance T phash existing Hnone k Hin). lia.
Qed.

Lemma check_one_group_inv seen st f st' :
  index_inv seen st /\ group_inv distance fs T seen st ->
  ~ In f seen ->
  check_one distance fs st f = Ok st' ->
  index_inv (f :: seen) st' /\ group_inv distance fs T (f :: seen) st'.
Proof.
  intros [HI (HT & H8 & H9 & H7)] Hf H.
  split; [eapply check_one_index_inv; eauto|].
  pose proof HI as (I1 & I2 & I3 & I4 & I5 & I6).
  pose proof (check_one_settings distance fs st f st' H) as (_ & _ & _ & _ & HT').
  apply check_one_ok in H as (sha & Hsha & Hst').
  set (st1 := record_digest st sha f) in *.
  destruct (record_digest_groups st sha f) as (P1 & S1 & T1). fold st1 in P1, S1, T1.
  assert (Hmap : sha256_map st' = sha256_map st1 /\ exact_duplicates st' = exact_duplicates st1).
  { rewrite Hst'. destruct (calculate_phash fs f) as [ph|];
      [destruct (String.eqb ph "")|]; auto.
    apply record_fingerprint_digests. }
  destruct Hmap as [M1 M2].
  (* the group map after the step *)
  assert (Hgroups :
            forall ph, calculate_phash fs f = Some ph -> ph <> EmptyString ->
                       st' = record_fingerprint distance st1 ph f).
  { intros ph Hph Hne. rewrite Hst', Hph. apply String.eqb_neq in Hne. now rewrite Hne. }
  assert (Hsame :
            (calculate_phash fs f = None \/ calculate_phash fs f = Some EmptyString) ->
            phash_map st' = phash_map st).
  { intros [E|E]; rewrite Hst', E; simpl; auto. }
  assert (Hkeys : forall k, In k (PyDict.keys (phash_map st)) ->
                            In k (PyDict.keys (phash_map st'))).
  { intros k Hk. destruct (calculate_phash fs f) as [ph|] eqn:Eph.
    - destruct (String.eqb_spec ph "") as [->|Hne].
      + rewrite Hsame; auto.
      + rewrite (Hgroups ph eq_refl Hne). unfold record_fingerprint.
        destruct (scan_groups _ _ _ _); simpl; rewrite P1; auto.
        now apply in_keys_set.
    - rewrite Hsame; auto. }
  repeat split.
  - congruence.
  - (* canonical files have their digest *)
    rewrite M1 in H. unfold st1, record_digest in H.
    destruct (PyDict.mem sha (sha256_map st)) eqn:Em; simpl in H.
    + right. now apply (H8 d c).
    + destruct (String.eqb_spec sha d) as [<-|Hne].
      * rewrite get_set_same in H. injection H as <-. now left.
      * rewrite get_set_other in H by assumption. right. now apply (H8 d c).
  - rewrite M1 in H. unfold st1, record_digest in H.
    destruct (PyDict.mem sha (sha256_map st)) eqn:Em; simpl in H.
    + now apply (H8 d c).
    + destruct (String.eqb_spec sha d) as [<-|Hne].
      * rewrite get_set_same in H. now injection H as <-.
      * rewrite get_set_other in H by assumption. now apply (H8 d c).
  - (* every scanned fingerprint has a key within the threshold *)
    intros q ph [<-|Hq] Hph Hne.
    + rewrite (Hgroups ph Hph Hne). unfold record_fingerprint. rewrite T1, HT.
      destruct (scan_groups distance T ph (PyDict.keys (phash_map st1))) as [k|] eqn:Es;
        simpl.
      * destruct (scan_groups_some _ _ _ _ _ Es) as (b & a & Hk & _ & Hle).
        exists k. split; auto. rewrite Hk. apply in_or_app. right. now left.
      * exists ph. split; [apply in_keys_set_same | apply distance_self].
    + destruct (H9 q ph Hq Hph Hne) as (k & Hk & Hle). exists k. auto.
  - (* no group original is an exact duplicate *)
    intros p Hp Hdup. unfold canonical_by_group, listed_duplicates in *.
    rewrite M2 in Hdup. unfold st1, record_digest in Hdup.
    destruct (PyDict.mem sha (sha256_map st)) eqn:Em; simpl in Hdup.
    + (* the file is an exact duplicate: it cannot open a group *)
      assert (Hpm : phash_map st' = phash_map st).
      { destruct (calculate_phash fs f) as [ph|] eqn:Eph; [|auto].
        destruct (String.eqb_spec ph "") as [->|Hne]; [auto|].
        rewrite (Hgroups ph eq_refl Hne). unfold record_fingerprint. rewrite T1, HT, P1.
        destruct (scan_groups distance T ph (PyDict.keys (phash_map st))) as [k|] eqn:Es;
          simpl; [assumption|]. exfalso.
        unfold PyDict.mem in Em.
        destruct (PyDict.get (sha256_map st) sha) as [c|] eqn:Ec; [|discriminate].
        destruct (H8 sha c Ec) as [Hc Hcs].
        rewrite <- (consistent c f sha Hcs Hsha) in Eph.
        destruct (H9 c ph Hc Eph Hne) as (k & Hk & Hle).
        exact (scan_groups_finds ph _ k Hk Hle Es). }
      rewrite Hpm in Hp.
      apply in_concat_append in Hdup as [->|Hdup].
      * apply Hf. now apply I3.
      * exact (H7 p Hp Hdup).
    + (* the file is the first of its digest *)
      assert (Hp' : p = f \/ In p (PyDict.values (phash_map st))).
      { destruct (calculate_phash fs f) as [ph|] eqn:Eph.
        - destruct (String.eqb_spec ph "") as [->|Hne].
          + right. rewrite Hsame in Hp; auto.
          + rewrite (Hgroups ph eq_refl Hne) in Hp. unfold record_fingerprint in Hp.
            destruct (scan_groups _ _ _ _); simpl in Hp; rewrite P1 in Hp; auto.
            now apply in_values_set in Hp.
        - right. rewrite Hsame in Hp; auto. }
      destruct Hp' as [->|Hp'].
      * apply Hf. now apply I2.
      * exact (H7 p Hp' Hdup).
Qed.

End Consistent.

Lemma group_inv_new config :
  group_inv distance fs (phash_threshold (new_checker config)) [] (new_checker config).
Proof.
  repeat split; simpl; try discriminate; try tauto.
Qed.

Lemma report_exact_entry st now d e :
  In (d, e) (report_exact_duplicates (generate_report st now)) ->
  In (duplicates e) (PyDict.values (exact_duplicates st)).
Proof.
  simpl. intros H. apply in_map_iff in H as ([k l] & [= <- <-] & Hin). simpl.
  unfold PyDict.values. now apply (in_map snd) in Hin.
Qed.

Lemma report_similar_entry st now k e :
  In (k, e) (report_similar_duplicates (generate_report st now)) ->
  In (similar_images e) (PyDict.values (similar_duplicates st)).
Proof.
  simpl. intros H. apply in_map_iff in H as ([k0 l] & [= <- <-] & Hin). simpl.
  unfold PyDict.values. now apply (in_map snd) in Hin.
Qed.

(** C3, as the code has it.  After a scan of pairwise distinct paths that
    started from the empty index, in the report: no value of the canonical
    digest map is in a [duplicates] list; no value of the group-key map is
    in a [similar_images] list; and, when every fingerprint is within the
    threshold of itself and files of equal digest have equal fingerprints,
    no value of the group-key map is in a [duplicates] list.  Nothing is
    said of a value of the digest map in a [similar_images] list: that
    happens. *)
Theorem canonical_paths_not_listed config files st now :
  NoDup files ->
  check_duplicates distance fs (new_checker config) files = Ok st ->
  (forall d e p,
      In (d, e) (report_exact_duplicates (generate_report st now)) ->
      In p (duplicates e) ->
      ~ In p (PyDict.values (sha256_map st))) /\
  (forall k e p,
      In (k, e) (report_similar_duplicates (generate_report st now)) ->
      In p (similar_images e) ->
      ~ In p (PyDict.values (phash_map st))) /\
  ((forall ph, (distance ph ph <= phash_threshold (new_checker config))%Z) ->
   same_bytes_same_fingerprint fs ->
   forall d e p,
     In (d, e) (report_exact_duplicates (generate_report st now)) ->
     In p (duplicates e) ->
     ~ In p (PyDict.values (phash_map st))).
Proof.
  intros Hnd Hscan.
  assert (Hfresh : forall f : path, In f files -> ~ In f []) by (intros f _ []).
  destruct (check_duplicates_invariant index_inv check_one_index_inv
              files [] (new_checker config) st (index_inv_new config) Hnd Hfresh Hscan)
    as (seen & _ & _ & _ & _ & I5 & I6).
  repeat split.
  - intros d e p He Hp Hc. apply (I5 p Hc).
    apply in_concat. exists (duplicates e). split; auto.
    eapply report_exact_entry; eauto.
  - intros k e p He Hp Hc. apply (I6 p Hc).
    apply in_concat. exists (similar_images e). split; auto.
    eapply report_similar_entry; eauto.
  - intros Hself Hcons d e p He Hp Hc.
    destruct (check_duplicates_invariant
                (fun seen st =>
                   index_inv seen st /\
                   group_inv distance fs (phash_threshold (new_checker config)) seen st)
                (check_one_group_inv (phash_threshold (new_checker config)) Hself Hcons)
                files [] (new_checker config) st
                (conj (index_inv_new config) (group_inv_new config)) Hnd Hfresh Hscan)
      as (seen' & _ & _ & _ & _ & G7).
    apply (G7 p Hc).
    apply in_concat. exists (duplicates e). split; auto.
    eapply report_exact_entry; eauto.
Qed.

End CanonicalPaths.

Lemma hamming_self (ph : string) : Imagehash.hamming ph ph = 0%Z.
Proof. unfold Imagehash.hamming. now rewrite Z.lxor_nilpotent. Qed.

Lemma scenario_paths_distinct :
  NoDup [Scenario.a_jpg; Scenario.b_jpg; Scenario.c_jpg].
Proof.
  repeat constructor; cbv; intuition discriminate.
Qed.

Lemma scenario_disk_consistent : same_bytes_same_fingerprint Scenario.disk.
Proof.
  intros p q d.
  unfold calculate_sha256, calculate_phash, Scenario.disk, fs_of.
  repeat match goal with
         | |- context [parts_eqb ?a ?b] => destruct (parts_eqb a b)
         end; simpl; congruence.
Qed.

Lemma canonical_paths_not_listed_witness :
  (forall d e p,
      In (d, e) (report_exact_duplicates
                   (generate_report Scenario.after_abc "2024-01-01T00:00:00")) ->
      In p (duplicates e) ->
      ~ In p (PyDict.values (sha256_map Scenario.after_abc))) /\
  (forall k e p,
      In (k, e) (report_similar_duplicates
                   (generate_report Scenario.after_abc "2024-01-01T00:00:00")) ->
      In p (similar_images e) ->
      ~ In p (PyDict.values (phash_map Scenario.after_abc))) /\
  (forall d e p,
      In (d, e) (report_exact_duplicates
                   (generate_report Scenario.after_abc "2024-01-01T00:00:00")) ->
      In p (duplicates e) ->
      ~ In p (PyDict.values (phash_map Scenario.after_abc))).
Proof.
  destruct (canonical_paths_not_listed Imagehash.hamming Scenario.disk Scenario.config
              [Scenario.a_jpg; Scenario.b_jpg; Scenario.c_jpg] Scenario.after_abc
              "2024-01-01T00:00:00" scenario_paths_distinct eq_refl)
    as (H1 & H2 & H3).
  split; [exact H1|]. split; [exact H2|].
  apply H3; [|exact scenario_disk_consistent].
  intros ph. rewrite hamming_self. vm_compute. discriminate.
Defined.

(** C3 as the specification words it fails, three times over.  In the
    scan of [a.jpg], [b.jpg], [c.jpg] the file [c.jpg] is the original of
    its digest and a member of the similarity group of [a.jpg].  A path
    scanned twice is the original of its digest and its own duplicate.
    With a threshold below every distance the exact duplicate [b.jpg]
    takes over the group keyed by the fingerprint it shares with
    [a.jpg]. *)
Lemma canonical_path_is_listed :
  (check_duplicates Imagehash.hamming Scenario.disk (new_checker Scenario.config)
     [Scenario.a_jpg; Scenario.b_jpg; Scenario.c_jpg] = Ok Scenario.after_abc /\
   In Scenario.c_jpg (PyDict.values (sha256_map Scenario.after_abc)) /\
   PyDict.get (report_similar_duplicates
                 (generate_report Scenario.after_abc "2024-01-01T00:00:00"))
              "ff00ff00ff00ff00"
   = Some (mk_similar (Path Scenario.a_jpg) [Scenario.b_jpg; Scenario.c_jpg])) /\
  (exists st,
      check_duplicates Imagehash.hamming Scenario.disk (new_checker Scenario.config)
        [Scenario.a_jpg; Scenario.a_jpg] = Ok st /\
      In Scenario.a_jpg (PyDict.values (sha256_map st)) /\
      PyDict.get (report_exact_duplicates (generate_report st "2024-01-01T00:00:00")) "d1"
      = Some (mk_exact (Path Scenario.a_jpg) [Scenario.a_jpg])) /\
  (exists st,
      check_duplicates Imagehash.hamming Scenario.disk (new_checker Scenario.strict_config)
        [Scenario.a_jpg; Scenario.b_jpg] = Ok st /\
      In Scenario.b_jpg (PyDict.values (phash_map st)) /\
      PyDict.get (report_exact_duplicates (generate_report st "2024-01-01T00:00:00")) "d1"
      = Some (mk_exact (Path Scenario.a_jpg) [Scenario.b_jpg])).
Proof.
  split; [|split].
  - split; [vm_compute; reflexivity|]. split; [right; left; reflexivity|].
    vm_compute. reflexivity.
  - eexists. split; [vm_compute; reflexivity|]. split; [left; reflexivity|].
    vm_compute. reflexivity.
  - eexists. split; [vm_compute; reflexivity|]. split; [left; reflexivity|].
    vm_compute. reflexivity.
Qed.

(* ------------------------------------------------------------------ *)
(** ** Further facts about the report and the mover *)

Lemma record_digest_count st sha256 f :
  List.length (sha256_map (record_digest st sha256 f))
  + total_len (exact_duplicates (record_digest st sha256 f))
  = S (List.length (sha256_map st) + total_len (exact_duplicates st)).
Proof.
  unfold record_digest, total_len.
  destruct (PyDict.mem sha256 (sha256_map st)) eqn:E; simpl.
  - rewrite sum_len_append. lia.
  - apply mem_false_iff in E. rewrite (set_fresh _ _ _ _ E), length_app. simpl. lia.
Qed.

Lemma check_duplicates_count distance fs files : forall st st',
  check_duplicates distance fs st files = Ok st' ->
  List.length (sha256_map st') + total_len (exact_duplicates st')
  = List.length (sha256_map st) + total_len (exact_duplicates st) + List.length files.
Proof.
  induction files as [|f files IH]; intros st st'; simpl.
  - intros [= <-]. lia.
  - destruct (check_one distance fs st f) as [s|e] eqn:E; simpl; [|discriminate].
    intros H. rewrite (IH _ _ H).
    apply check_one_ok in E as (sha & _ & ->).
    pose proof (record_digest_count st sha f) as Hc.
    destruct (calculate_phash fs f) as [ph|]; [destruct (String.eqb ph "")|]; try lia.
    destruct (record_fingerprint_digests distance (record_digest st sha f) ph f)
      as [-> ->]. lia.
Qed.

(** With a scan that started from the empty index, the report's total is
    the number of paths scanned. *)
Lemma total_images_scanned_is_scan_length distance fs config files st now :
  check_duplicates distance fs (new_checker config) files = Ok st ->
  total_images_scanned (generate_report st now) = List.length files.
Proof.
  intros H. apply check_duplicates_count in H. simpl in *. exact H.
Qed.









Lemma set_keys_nodup (V : Type) (d : PyDict.dict V) (k : string) (v : V) :
  NoDup (PyDict.keys d) -> NoDup (PyDict.keys (PyDict.set d k v)).
Proof.
  intros H. destruct (PyDict.mem k d) eqn:E.
  - apply mem_true_iff in E. now destruct (set_present _ d k v E) as [-> _].
  - apply mem_false_iff in E. rewrite (set_fresh _ _ _ _ E).
    unfold PyDict.keys in *. rewrite map_app. simpl.
    apply NoDup_app; auto.
    + constructor; [intros [] | constructor].
    + intros x Hx [<-|[]]. auto.
Qed.

(** The keys of the canonical map are pairwise distinct digests. *)
Lemma canonical_digests_distinct distance fs files : forall st st',
  NoDup (PyDict.keys (sha256_map st)) ->
  check_duplicates distance fs st files = Ok st' ->
  NoDup (PyDict.keys (sha256_map st')).
Proof.
  induction files as [|f files IH]; intros st st' Hnd; simpl.
  - now intros [= <-].
  - destruct (check_one distance fs st f) as [s|e] eqn:E; simpl; [|discriminate].
    apply IH. apply check_one_ok in E as (sha & _ & ->).
    assert (H1 : NoDup (PyDict.keys (sha256_map (record_digest st sha f)))).
    { unfold record_digest. destruct (PyDict.mem sha (sha256_map st)); simpl; auto.
      now apply set_keys_nodup. }
    destruct (calculate_phash fs f) as [ph|]; [destruct (String.eqb ph "")|]; auto.
    now destruct (record_fingerprint_digests distance (record_digest st sha f) ph f)
      as [-> _].
Qed.

(* ================================================================== *)
(** * Further properties of the engine *)

(** ** Discovery *)





(* ------------------------------------------------------------------ *)
(** ** The scan *)

Lemma members_append_same (A : Type) (d : PyDict.dict (list A)) (k : string) (x : A) :
  PyDict.members (PyDict.append_to d k x) k = PyDict.members d k ++ [x].
Proof.
  unfold PyDict.members at 1. now rewrite get_append_same.
Qed.

Lemma members_append_other (A : Type) (d : PyDict.dict (list A)) (k k' : string) (x : A) :
  k <> k' -> PyDict.members (PyDict.append_to d k x) k' = PyDict.members d k'.
Proof.
  intros H. unfold PyDict.members. now rewrite get_append_other.
Qed.

Lemma in_keys_append (A : Type) (d : PyDict.dict (list A)) (k0 k : string) (x : A) :
  In k (PyDict.keys (PyDict.append_to d k0 x)) -> k = k0 \/ In k (PyDict.keys d).
Proof.
  unfold PyDict.append_to. set (v := match PyDict.get d k0 with
                                     | Some l => l ++ [x] | None => [x] end).
  destruct (PyDict.mem k0 d) eqn:E.
  - apply mem_true_iff in E. destruct (set_present _ d k0 v E) as [-> _]. auto.
  - apply mem_false_iff in E. rewrite (set_fresh _ d k0 v E).
    unfold PyDict.keys. rewrite map_app, in_app_iff. simpl. intuition.
Qed.

Lemma FOP_snoc (A : Type) (R : A -> A -> Prop) (l : list A) (a : A) :
  ForallOrdPairs R l -> (forall x, In x l -> R x a) -> ForallOrdPairs R (l ++ [a]).
Proof.
  induction 1 as [|b l Hb Hl IH]; intros Ha; simpl.
  - repeat constructor.
  - constructor.
    + apply Forall_app. split; [assumption|]. constructor; [|constructor].
      apply Ha. now left.
    + apply IH. intros x Hx. apply Ha. now right.
Qed.

Section ScanProperties.

Variable distance : string -> string -> Z.
Variable fs : filesystem.

(** The loop carries what every iteration carries. *)
Lemma check_duplicates_preserves (I : DuplicateChecker -> Prop) :
  (forall st f st', I st -> check_one distance fs st f = Ok st' -> I st') ->
  forall files st st',
    I st -> check_duplicates distance fs st files = Ok st' -> I st'.
Proof.
  intros Hstep. induction files as [|f files IH]; intros st st' HI; simpl.
  - now intros [= <-].
  - destruct (check_one distance fs st f) as [s|e] eqn:E; simpl; [|discriminate].
    apply IH. eapply Hstep; eauto.
Qed.

(** *** Exact groups *)

Lemma check_one_digest_groups st f st' d :
  check_one distance fs st f = Ok st' ->
  (digest_is fs d f = true ->
   match PyDict.get (sha256_map st) d with
   | Some c => PyDict.get (sha256_map st') d = Some c /\
               PyDict.members (exact_duplicates st') d
               = PyDict.members (exact_duplicates st) d ++ [f]
   | None => PyDict.get (sha256_map st') d = Some f /\
             PyDict.members (exact_duplicates st') d
             = PyDict.members (exact_duplicates st) d
   end) /\
  (digest_is fs d f = false ->
   PyDict.get (sha256_map st') d = PyDict.get (sha256_map st) d /\
   PyDict.members (exact_duplicates st') d = PyDict.members (exact_duplicates st) d).
Proof.
  intros H. apply check_one_ok in H as (sha & Hsha & ->).
  assert (E : sha256_map
                match calculate_phash fs f with
                | Some phash =>
                    if String.eqb phash ""
                    then record_digest st sha f
                    else record_fingerprint distance (record_digest st sha f) phash f
                | None => record_digest st sha f
                end = sha256_map (record_digest st sha f) /\
              exact_duplicates
                match calculate_phash fs f with
                | Some phash =>
                    if String.eqb phash ""
                    then record_digest st sha f
                    else record_fingerprint distance (record_digest st sha f) phash f
                | None => record_digest st sha f
                end = exact_duplicates (record_digest st sha f)).
  { destruct (calculate_phash fs f) as [ph|]; [destruct (String.eqb ph "")|]; auto.
    apply record_fingerprint_digests. }
  destruct E as [-> ->]. unfold digest_is. rewrite Hsha.
  unfold record_digest, PyDict.mem.
  destruct (String.eqb_spec sha d) as [->|Hne]; split; try discriminate; intros _.
  - destruct (PyDict.get (sha256_map st) d) as [c|] eqn:G; simpl.
    + rewrite G. split; [reflexivity | apply members_append_same].
    + rewrite get_set_same. auto.
  - destruct (PyDict.get (sha256_map st) sha) as [c|] eqn:G; simpl.
    + split; [reflexivity | now apply members_append_other].
    + split; [now apply get_set_other | reflexivity].
Qed.

Lemma check_duplicates_digest_groups d files : forall st st',
  check_duplicates distance fs st files = Ok st' ->
  PyDict.get (sha256_map st') d
  = match PyDict.get (sha256_map st) d with
    | Some c => Some c
    | None => hd_error (filter (digest_is fs d) files)
    end /\
  PyDict.members (exact_duplicates st') d
  = PyDict.members (exact_duplicates st) d ++
    match PyDict.get (sha256_map st) d with
    | Some _ => filter (digest_is fs d) files
    | None => tl (filter (digest_is fs d) files)
    end.
Proof.
  induction files as [|f files IH]; intros st st'; simpl.
  - intros [= <-]. destruct (PyDict.get (sha256_map st) d); now rewrite app_nil_r.
  - destruct (check_one distance fs st f) as [s|e] eqn:E; simpl; [|discriminate].
    intros H. destruct (IH _ _ H) as [-> ->].
    destruct (check_one_digest_groups _ _ _ d E) as [Hyes Hno].
    destruct (digest_is fs d f) eqn:D.
    + specialize (Hyes eq_refl).
      destruct (PyDict.get (sha256_map st) d) as [c|]; destruct Hyes as [-> ->]; simpl.
      * now rewrite <- app_assoc.
      * auto.
    + destruct (Hno eq_refl) as [-> ->]. auto.
Qed.

(** X2.  After a scan that started from the empty index, the canonical
    file of a digest is the first scanned path with that digest, and the
    digest's duplicate list holds the later paths with that digest, in
    scan order. *)
Theorem exact_groups_by_first_occurrence config files st d :
  check_duplicates distance fs (new_checker config) files = Ok st ->
  PyDict.get (sha256_map st) d = hd_error (filter (digest_is fs d) files) /\
  PyDict.members (exact_duplicates st) d = tl (filter (digest_is fs d) files).
Proof.
  intros H. apply (check_duplicates_digest_groups d) in H. exact H.
Qed.

(** *** Keys of the lists are keys of the maps *)

Lemma check_one_keys_covered st f st' :
  ((forall k, In k (PyDict.keys (exact_duplicates st)) ->
              In k (PyDict.keys (sha256_map st))) /\
   (forall k, In k (PyDict.keys (similar_duplicates st)) ->
              In k (PyDict.keys (phash_map st)))) ->
  check_one distance fs st f = Ok st' ->
  (forall k, In k (PyDict.keys (exact_duplicates st')) ->
             In k (PyDict.keys (sha256_map st'))) /\
  (forall k, In k (PyDict.keys (similar_duplicates st')) ->
             In k (PyDict.keys (phash_map st'))).
Proof.
  intros [HE HS] H. apply check_one_ok in H as (sha & _ & ->).
  set (st1 := record_digest st sha f).
  assert (H1 : (forall k, In k (PyDict.keys (exact_duplicates st1)) ->
                          In k (PyDict.keys (sha256_map st1))) /\
               (forall k, In k (PyDict.keys (similar_duplicates st1)) ->
                          In k (PyDict.keys (phash_map st1)))).
  { unfold st1, record_digest.
    destruct (PyDict.mem sha (sha256_map st)) eqn:E; simpl; split; auto.
    - intros k Hk. apply in_keys_append in Hk as [->|Hk]; auto.
      now apply mem_true_iff.
    - intros k Hk. apply in_keys_set. auto. }
  destruct (calculate_phash fs f) as [ph|]; [destruct (String.eqb ph "")|]; auto.
  destruct H1 as [E1 S1].
  destruct (record_fingerprint_digests distance st1 ph f) as [-> ->].
  split; [assumption|].
  unfold record_fingerprint.
  destruct (scan_groups distance (phash_threshold st1) ph (PyDict.keys (phash_map st1)))
    as [k0|] eqn:Es; simpl.
  - intros k Hk. apply in_keys_append in Hk as [->|Hk]; auto.
    destruct (scan_groups_some _ _ _ _ _ Es) as (b & a & -> & _).
    apply in_or_app. right. now left.
  - intros k Hk. apply in_keys_set. auto.
Qed.

(** X3.  In the report of a scan that started from the empty index every
    group has an original: the ["Unknown"] default of [generate_report] is
    never taken. *)
Theorem report_originals_known config files st now :
  check_duplicates distance fs (new_checker config) files = Ok st ->
  (forall d e, In (d, e) (report_exact_duplicates (generate_report st now)) ->
               exists p, original e = Path p) /\
  (forall k e, In (k, e) (report_similar_duplicates (generate_report st now)) ->
               exists p, similar_original e = Path p).
Proof.
  intros H.
  assert (Hcov : (forall k, In k (PyDict.keys (exact_duplicates st)) ->
                            In k (PyDict.keys (sha256_map st))) /\
                 (forall k, In k (PyDict.keys (similar_duplicates st)) ->
                            In k (PyDict.keys (phash_map st)))).
  { apply (check_duplicates_preserves _ check_one_keys_covered files
             (new_checker config) st); [|assumption].
    split; intros k []. }
  destruct Hcov as [HE HS]. simpl. split.
  - intros d e Hin. apply in_map_iff in Hin as ([k l] & [= <- <-] & Hin). simpl.
    assert (Hk : In k (PyDict.keys (sha256_map st))).
    { apply HE. unfold PyDict.keys. now apply (in_map fst) in Hin. }
    apply mem_true_iff in Hk. unfold PyDict.mem, get_or_unknown in *.
    destruct (PyDict.get (sha256_map st) k); [eauto | discriminate].
  - intros d e Hin. apply in_map_iff in Hin as ([k l] & [= <- <-] & Hin). simpl.
    assert (Hk : In k (PyDict.keys (phash_map st))).
    { apply HS. unfold PyDict.keys. now apply (in_map fst) in Hin. }
    apply mem_true_iff in Hk. unfold PyDict.mem, get_or_unknown in *.
    destruct (PyDict.get (phash_map st) k); [eauto | discriminate].
Qed.

End ScanProperties.

Section SimilarityProperties.

Variable distance : string -> string -> Z.
Variable fs : filesystem.

Lemma check_one_groups_sound T st f st' :
  (phash_threshold st = T /\
   (forall k p, PyDict.get (phash_map st) k = Some p ->
                calculate_phash fs p = Some k /\ k <> EmptyString) /\
   (forall k p, In p (PyDict.members (similar_duplicates st) k) ->
                exists ph, calculate_phash fs p = Some ph /\ ph <> EmptyString /\
                           (distance ph k <= T)%Z)) ->
  check_one distance fs st f = Ok st' ->
  phash_threshold st' = T /\
  (forall k p, PyDict.get (phash_map st') k = Some p ->
               calculate_phash fs p = Some k /\ k <> EmptyString) /\
  (forall k p, In p (PyDict.members (similar_duplicates st') k) ->
               exists ph, calculate_phash fs p = Some ph /\ ph <> EmptyString /\
                          (distance ph k <= T)%Z).
Proof.
  intros (HT & HK & HM) H.
  pose proof (check_one_settings distance fs st f st' H) as (_ & _ & _ & _ & HT').
  split; [congruence|].
  apply check_one_ok in H as (sha & _ & ->).
  destruct (record_digest_groups st sha f) as (P1 & S1 & T1).
  destruct (calculate_phash fs f) as [ph|] eqn:Eph;
    [destruct (String.eqb_spec ph "") as [->|Hne]|];
    try (rewrite P1, S1; auto).
  unfold record_fingerprint. rewrite T1, P1, S1, HT.
  destruct (scan_groups distance T ph (PyDict.keys (phash_map st))) as [k0|] eqn:Es;
    simpl; rewrite ?P1, ?S1.
  - split; [assumption|]. intros k p Hp.
    destruct (String.eqb_spec k0 k) as [<-|Hk].
    + rewrite members_append_same in Hp. apply in_app_or in Hp as [Hp|[<-|[]]]; auto.
      destruct (scan_groups_some _ _ _ _ _ Es) as (_ & _ & _ & _ & Hle). eauto.
    + rewrite members_append_other in Hp by assumption. auto.
  - split; [|assumption]. intros k p Hp.
    destruct (String.eqb_spec ph k) as [<-|Hk].
    + rewrite get_set_same in Hp. injection Hp as <-. auto.
    + rewrite get_set_other in Hp by assumption. auto.
Qed.

(** X4.  After a scan that started from the empty index, the key of a
    similarity group is the fingerprint of the group's original, and
    every member of the group has a fingerprint at distance at most the
    threshold from that key. *)
Theorem similarity_groups_sound config files st :
  check_duplicates distance fs (new_checker config) files = Ok st ->
  (forall k p, PyDict.get (phash_map st) k = Some p ->
               calculate_phash fs p = Some k /\ k <> EmptyString) /\
  (forall k p, In p (PyDict.members (similar_duplicates st) k) ->
               exists ph, calculate_phash fs p = Some ph /\ ph <> EmptyString /\
                          (distance ph k <= phash_threshold (new_checker config))%Z).
Proof.
  intros H.
  apply (check_duplicates_preserves distance fs _
           (check_one_groups_sound (phash_threshold (new_checker config)))
           files (new_checker config) st); [|assumption].
  split; [reflexivity|]. split; [discriminate | intros k p []].
Qed.

Lemma check_one_fingerprinted st f st' :
  (forall p, In p (canonical_by_group st) \/ In p (listed_similar st) ->
             has_fingerprint fs p = true) ->
  check_one distance fs st f = Ok st' ->
  forall p, In p (canonical_by_group st') \/ In p (listed_similar st') ->
            has_fingerprint fs p = true.
Proof.
  intros HI H. apply check_one_ok in H as (sha & _ & ->).
  assert (G : canonical_by_group (record_digest st sha f) = canonical_by_group st /\
              listed_similar (record_digest st sha f) = listed_similar st).
  { unfold canonical_by_group, listed_similar.
    destruct (record_digest_groups st sha f) as (-> & -> & _). auto. }
  destruct G as [G1 G2].
  destruct (calculate_phash fs f) as [ph|] eqn:Eph;
    [destruct (String.eqb ph "") eqn:Ee|]; try (rewrite G1, G2; exact HI).
  assert (Hf : has_fingerprint fs f = true).
  { unfold has_fingerprint. now rewrite Eph, Ee. }
  intros p Hp.
  destruct (record_fingerprint_paths distance (record_digest st sha f) ph f)
    as [[A B]|[A B]]; rewrite G1, G2 in *; destruct Hp as [Hp|Hp].
  - apply HI. left. auto.
  - destruct (B p Hp) as [->|Hq]; auto.
  - destruct (A p Hp) as [->|Hq]; auto.
  - apply HI. right. auto.
Qed.

(** X5.  A file for which [calculate_phash] gave nothing (it could not be
    decoded) or the empty string takes no part in the similarity
    detection: after a scan that started from the empty index it is
    neither the original nor a member of any similarity group in the
    report. *)
Theorem undecodable_file_in_no_group config files st now p :
  check_duplicates distance fs (new_checker config) files = Ok st ->
  has_fingerprint fs p = false ->
  forall k e,
    In (k, e) (report_similar_duplicates (generate_report st now)) ->
    similar_original e <> Path p /\ ~ In p (similar_images e).
Proof.
  intros H Hno k e Hin.
  assert (HI : forall q, In q (canonical_by_group st) \/ In q (listed_similar st) ->
                         has_fingerprint fs q = true).
  { apply (check_duplicates_preserves distance fs _ check_one_fingerprinted files
             (new_checker config) st); [|assumption].
    intros q [[]|[]]. }
  pose proof (report_similar_entry st now k e Hin) as Hl.
  simpl in Hin. apply in_map_iff in Hin as ([k0 l] & [= <- <-] & _). simpl in *.
  split.
  - unfold get_or_unknown. destruct (PyDict.get (phash_map st) k0) as [c|] eqn:G;
      [|discriminate].
    intros [= ->]. apply get_in_values in G.
    rewrite (HI p (or_introl G)) in Hno. discriminate.
  - intros Hp.
    assert (Hs : In p (listed_similar st)).
    { apply in_concat. exists l. auto. }
    rewrite (HI p (or_intror Hs)) in Hno. discriminate.
Qed.

Lemma check_one_keys_apart T st f st' :
  (phash_threshold st = T /\
   ForallOrdPairs (fun earlier later => (T < distance later earlier)%Z)
                  (PyDict.keys (phash_map st))) ->
  check_one distance fs st f = Ok st' ->
  phash_threshold st' = T /\
  ForallOrdPairs (fun earlier later => (T < distance later earlier)%Z)
                 (PyDict.keys (phash_map st')).
Proof.
  intros [HT HK] H.
  pose proof (check_one_settings distance fs st f st' H) as (_ & _ & _ & _ & HT').
  split; [congruence|].
  apply check_one_ok in H as (sha & _ & ->).
  destruct (record_digest_groups st sha f) as (P1 & S1 & T1).
  destruct (calculate_phash fs f) as [ph|]; [destruct (String.eqb ph "")|];
    try (rewrite P1; exact HK).
  unfold record_fingerprint. rewrite T1, P1, HT.
  destruct (scan_groups distance T ph (PyDict.keys (phash_map st))) as [k0|] eqn:Es;
    simpl; rewrite ?P1; [exact HK|].
  destruct (PyDict.mem ph (phash_map st)) eqn:Em.
  - apply mem_true_iff in Em. now destruct (set_present _ (phash_map st) ph f Em) as [-> _].
  - apply mem_false_iff in Em. rewrite (set_fresh _ (phash_map st) ph f Em).
    unfold PyDict.keys in *. rewrite map_app. simpl.
    apply FOP_snoc; [assumption|].
    intros k Hk. exact (scan_groups_none distance T ph _ Es k Hk).
Qed.

(** X6.  After a scan that started from the empty index the keys of the
    similarity groups are pairwise apart: each key is at distance greater
    than the threshold from every key created before it. *)
Theorem group_keys_apart config files st :
  check_duplicates distance fs (new_checker config) files = Ok st ->
  ForallOrdPairs
    (fun earlier later =>
       (phash_threshold (new_checker config) < distance later earlier)%Z)
    (PyDict.keys (phash_map st)).
Proof.
  intros H.
  apply (check_duplicates_preserves distance fs _
           (check_one_keys_apart (phash_threshold (new_checker config)))
           files (new_checker config) st); [|assumption].
  split; [reflexivity | constructor].
Qed.

Lemma check_duplicates_similar_count files : forall st st',
  (forall ph, (distance ph ph <= phash_threshold st)%Z) ->
  check_duplicates distance fs st files = Ok st' ->
  List.length (phash_map st') + total_len (similar_duplicates st')
  = List.length (phash_map st) + total_len (similar_duplicates st)
    + List.length (filter (has_fingerprint fs) files).
Proof.
  induction files as [|f files IH]; intros st st' Hself; simpl.
  - intros [= <-]. lia.
  - destruct (check_one distance fs st f) as [s|e] eqn:E; simpl; [|discriminate].
    intros H.
    pose proof (check_one_settings distance fs st f s E) as (_ & _ & _ & _ & HT).
    rewrite (IH s st'); [|now rewrite <- HT | assumption].
    apply check_one_ok in E as (sha & _ & ->).
    destruct (record_digest_groups st sha f) as (P1 & S1 & T1).
    unfold has_fingerprint.
    destruct (calculate_phash fs f) as [ph|]; [destruct (String.eqb ph "")|];
      simpl; rewrite ?P1, ?S1; try lia.
    unfold record_fingerprint. rewrite T1, P1, S1.
    destruct (scan_groups distance (phash_threshold st) ph (PyDict.keys (phash_map st)))
      as [k0|] eqn:Es; simpl; rewrite ?P1, ?S1.
    + unfold total_len. rewrite sum_len_append. lia.
    + assert (Hfresh : ~ In ph (PyDict.keys (phash_map st))).
      { intros Hin. pose proof (scan_groups_none distance _ ph _ Es ph Hin).
        specialize (Hself ph). lia. }
      rewrite (set_fresh _ _ _ _ Hfresh), length_app. simpl. lia.
Qed.

(** X7.  When every fingerprint is within the threshold of itself, each
    scanned file with a fingerprint is counted once: the number of
    similarity-group keys plus [similar_duplicates_count] is the number of
    scanned paths with a fingerprint. *)
Theorem fingerprinted_files_counted_once config files st now :
  (forall ph, (distance ph ph <= phash_threshold (new_checker config))%Z) ->
  check_duplicates distance fs (new_checker config) files = Ok st ->
  List.length (PyDict.keys (phash_map st))
  + similar_duplicates_count (generate_report st now)
  = List.length (filter (has_fingerprint fs) files).
Proof.
  intros Hself H. apply check_duplicates_similar_count in H; [|assumption].
  unfold PyDict.keys. rewrite length_map. simpl in *. lia.
Qed.

(** *** Failure *)

Lemma check_one_total st f sha256 :
  calculate_sha256 fs f = Ok sha256 -> exists st', check_one distance fs st f = Ok st'.
Proof.
  intros H. destruct (check_one_hashed distance fs st f sha256 H) as (st' & E & _).
  eauto.
Qed.

Lemma check_duplicates_total files : forall st,
  (forall p, In p files -> exists d, calculate_sha256 fs p = Ok d) ->
  exists st', check_duplicates distance fs st files = Ok st'.
Proof.
  induction files as [|f files IH]; intros st Hall; simpl; [eauto|].
  destruct (Hall f (or_introl eq_refl)) as [d Hd].
  destruct (check_one_total st f d Hd) as [s ->]. simpl.
  apply IH. intros p Hp. apply Hall. now right.
Qed.

(** X8.  The scan returns exactly when every listed path can be hashed. *)
Theorem scan_returns_iff_all_hashed st files :
  (exists st', check_duplicates distance fs st files = Ok st') <->
  (forall p, In p files -> exists d, calculate_sha256 fs p = Ok d).
Proof.
  split; [|apply check_duplicates_total].
  revert st. induction files as [|f files IH]; intros st [st' H] p; simpl in *; [tauto|].
  destruct (check_one distance fs st f) as [s|e] eqn:E; simpl in H; [|discriminate].
  intros [<-|Hp].
  - apply check_one_ok in E as (sha & Hsha & _). eauto.
  - apply (IH s); eauto.
Qed.

(** X9.  The first path that cannot be hashed ends the scan with the
    exception of [calculate_sha256]; the paths after it are not looked
    at. *)
Theorem scan_stops_at_first_failure st pre bad post e :
  (forall p, In p pre -> exists d, calculate_sha256 fs p = Ok d) ->
  calculate_sha256 fs bad = Raise e ->
  check_duplicates distance fs st (pre ++ bad :: post) = Raise e.
Proof.
  intros Hpre Hbad. rewrite check_duplicates_app.
  destruct (check_duplicates_total pre st Hpre) as [s ->]. simpl.
  unfold check_one. now rewrite Hbad.
Qed.

End SimilarityProperties.

Lemma exact_groups_by_first_occurrence_witness :
  PyDict.get (sha256_map Scenario.after_abc) "d1"
  = hd_error (filter (digest_is Scenario.disk "d1")
                [Scenario.a_jpg; Scenario.b_jpg; Scenario.c_jpg]) /\
  PyDict.members (exact_duplicates Scenario.after_abc) "d1"
  = tl (filter (digest_is Scenario.disk "d1")
          [Scenario.a_jpg; Scenario.b_jpg; Scenario.c_jpg]).
Proof.
  apply (exact_groups_by_first_occurrence Imagehash.hamming Scenario.disk
           Scenario.config [Scenario.a_jpg; Scenario.b_jpg; Scenario.c_jpg]
           Scenario.after_abc "d1").
  vm_compute. reflexivity.
Defined.

Lemma report_originals_known_witness :
  (forall d e,
      In (d, e) (report_exact_duplicates
                   (generate_report Scenario.after_abc "2024-01-01T00:00:00")) ->
      exists p, original e = Path p) /\
  (forall k e,
      In (k, e) (report_similar_duplicates
                   (generate_report Scenario.after_abc "2024-01-01T00:00:00")) ->
      exists p, similar_original e = Path p).
Proof.
  apply (report_originals_known Imagehash.hamming Scenario.disk Scenario.config
           [Scenario.a_jpg; Scenario.b_jpg; Scenario.c_jpg] Scenario.after_abc
           "2024-01-01T00:00:00").
  vm_compute. reflexivity.
Defined.

Lemma similarity_groups_sound_witness :
  (forall k p, PyDict.get (phash_map Scenario.after_abc) k = Some p ->
               calculate_phash Scenario.disk p = Some k /\ k <> EmptyString) /\
  (forall k p, In p (PyDict.members (similar_duplicates Scenario.after_abc) k) ->
               exists ph, calculate_phash Scenario.disk p = Some ph /\
                          ph <> EmptyString /\
                          (Imagehash.hamming ph k
                           <= phash_threshold (new_checker Scenario.config))%Z).
Proof.
  apply (similarity_groups_sound Imagehash.hamming Scenario.disk Scenario.config
           [Scenario.a_jpg; Scenario.b_jpg; Scenario.c_jpg] Scenario.after_abc).
  vm_compute. reflexivity.
Defined.

Lemma undecodable_file_in_no_group_witness :
  has_fingerprint Scenario.disk_with_fork Scenario.fork_jpg = false /\
  forall k e,
    In (k, e) (report_similar_duplicates
                 (generate_report after_fork_scan "2024-01-01T00:00:00")) ->
    similar_original e <> Path Scenario.fork_jpg /\
    ~ In Scenario.fork_jpg (similar_images e).
Proof.
  split; [vm_compute; reflexivity|].
  apply (undecodable_file_in_no_group Imagehash.hamming Scenario.disk_with_fork
           Scenario.config
           [Scenario.fork_jpg; Scenario.a_jpg; Scenario.b_jpg; Scenario.c_jpg]
           after_fork_scan "2024-01-01T00:00:00" Scenario.fork_jpg).
  - vm_compute. reflexivity.
  - vm_compute. reflexivity.
Defined.

Lemma group_keys_apart_witness :
  ForallOrdPairs
    (fun earlier later =>
       (phash_threshold (new_checker Scenario.config)
        < Imagehash.hamming later earlier)%Z)
    (PyDict.keys (phash_map Scenario.after_abc)).
Proof.
  apply (group_keys_apart Imagehash.hamming Scenario.disk Scenario.config
           [Scenario.a_jpg; Scenario.b_jpg; Scenario.c_jpg] Scenario.after_abc).
  vm_compute. reflexivity.
Defined.

Lemma fingerprinted_files_counted_once_witness :
  List.length (PyDict.keys (phash_map after_fork_scan))
  + similar_duplicates_count (generate_report after_fork_scan "2024-01-01T00:00:00")
  = List.length
      (filter (has_fingerprint Scenario.disk_with_fork)
         [Scenario.fork_jpg; Scenario.a_jpg; Scenario.b_jpg; Scenario.c_jpg]).
Proof.
  apply (fingerprinted_files_counted_once Imagehash.hamming Scenario.disk_with_fork
           Scenario.config
           [Scenario.fork_jpg; Scenario.a_jpg; Scenario.b_jpg; Scenario.c_jpg]
           after_fork_scan "2024-01-01T00:00:00").
  - intros ph. rewrite hamming_self. vm_compute. discriminate.
  - vm_compute. reflexivity.
Defined.

Lemma scan_stops_at_first_failure_witness :
  check_duplicates Imagehash.hamming Scenario.disk_with_locked
    (new_checker Scenario.config)
    ([Scenario.a_jpg] ++ Scenario.locked_jpg :: [Scenario.b_jpg; Scenario.c_jpg])
  = Raise (OSError Scenario.locked_jpg).
Proof.
  apply (scan_stops_at_first_failure Imagehash.hamming Scenario.disk_with_locked
           (new_checker Scenario.config) [Scenario.a_jpg] Scenario.locked_jpg
           [Scenario.b_jpg; Scenario.c_jpg] (OSError Scenario.locked_jpg)).
  - intros p [<-|[]]. exists "d1"%string. vm_compute. reflexivity.
  - vm_compute. reflexivity.
Defined.

(* ------------------------------------------------------------------ *)
(** ** The mover, file by file *)

Lemma move_all_app self backup_subdir l1 l2 : forall acc,
  move_all self backup_subdir acc (l1 ++ l2)
  = (acc' <- move_all self backup_subdir acc l1 ;;
     move_all self backup_subdir acc' l2).
Proof.
  induction l1 as [|d l1 IH]; intros acc; cbn [move_all app bind]; auto.
  destruct (move_duplicate self backup_subdir acc d) as [acc1|e]; cbn [bind]; auto.
Qed.



Lemma backup_ok_inv self stamp fs n subdir fs' :
  backup_and_remove_duplicates self stamp fs = Ok (n, subdir, fs') ->
  subdir = joinpath (backup_dir self) [("duplicates_" ++ stamp)%string] /\
  exists fs0,
    mkdir_parents fs subdir = Ok fs0 /\
    move_all self subdir (0, fs0)
      (List.concat (PyDict.values (exact_duplicates self))) = Ok (n, fs').
Proof.
  unfold backup_and_remove_duplicates, bind.
  destruct (mkdir_parents fs _) as [fs0|] eqn:Em; [|discriminate].
  destruct (move_all self _ (0, fs0) _) as [[m fsm]|] eqn:E; [|discriminate].
  simpl. intros [= <- <- <-]. split; [reflexivity|]. eauto.
Qed.



(** X13.  A listed duplicate that is there when its turn comes, the
    duplicates listed before it having been dealt with, and does not lie
    below the parent directory of the first source folder makes the mover
    raise the [ValueError] of [relative_to], whatever is listed after
    it. *)
Theorem backup_aborts_outside_first_root self stamp fs pre d post first rest :
  List.concat (PyDict.values (exact_duplicates self)) = pre ++ d :: post ->
  source_folders self = first :: rest ->
  relative_to d (parent first) = None ->
  (exists fs0 n fs1,
      mkdir_parents fs (joinpath (backup_dir self) [("duplicates_" ++ stamp)%string])
      = Ok fs0 /\
      move_all self (joinpath (backup_dir self) [("duplicates_" ++ stamp)%string])
        (0, fs0) pre = Ok (n, fs1) /\
      path_exists fs1 d = true) ->
  backup_and_remove_duplicates self stamp fs = Raise (ValueError d).
Proof.
  intros Hlist Hroots Hrel (fs0 & n & fs1 & Hmk & Hpre & Hex).
  unfold backup_and_remove_duplicates. rewrite Hmk, Hlist. cbn [bind].
  rewrite move_all_app, Hpre. cbn [bind move_all].
  unfold move_duplicate. now rewrite Hex, Hroots, Hrel.
Qed.




Lemma backup_aborts_outside_first_root_witness :
  backup_and_remove_duplicates after_fourth_scan "20240101_000000" disk_with_fourth
  = Raise (ValueError third_jpg).
Proof.
  apply (backup_aborts_outside_first_root after_fourth_scan "20240101_000000"
           disk_with_fourth [TwoRoots.second_jpg] third_jpg [fourth_jpg]
           TwoRoots.root_x [TwoRoots.root_y]).
  - vm_compute. reflexivity.
  - reflexivity.
  - vm_compute. reflexivity.
  - do 3 eexists. split; [reflexivity|]. split; [reflexivity|]. vm_compute. reflexivity.
Defined.

(* ------------------------------------------------------------------ *)
(** ** Construction and the run *)



Lemma open_write_ok fs p data fs' :
  open_write fs p data = Ok fs' ->
  fs' = fs_update fs p (File data) /\ is_dir fs p = false /\
  is_dir fs (parent p) = true.
Proof.
  unfold open_write. destruct (is_dir fs p); [discriminate|].
  destruct (below_file fs p); [discriminate|].
  destruct (path_exists fs (parent p)); simpl; [|discriminate].
  destruct (is_dir fs (parent p)); simpl; [|discriminate].
  intros [= <-]. auto.
Qed.

(** What a completed [run] went through. *)
Lemma run_ok_inv distance walk report_file self fs stamp now st fs' report :
  run distance walk report_file self fs stamp now = Ok (st, fs', report) ->
  check_duplicates distance fs self (find_all_images walk self fs) = Ok st /\
  report = generate_report st now /\
  exists fs1,
    ((0 <? total_len (exact_duplicates st)) = false /\ fs1 = fs \/
     (0 <? total_len (exact_duplicates st)) = true /\
     exists moved,
       backup_and_remove_duplicates st stamp fs
       = Ok (moved, joinpath (backup_dir st) [("duplicates_" ++ stamp)%string], fs1)) /\
    fs' = fs_update fs1 (joinpath (output_dir st) ["duplicate_report.json"%string])
            (File (report_file report)).
Proof.
  unfold run, save_report, bind.
  destruct (check_duplicates distance fs self (find_all_images walk self fs)) as [s|e];
    [|discriminate].
  destruct (0 <? total_len (exact_duplicates s)) eqn:E.
  - destruct (backup_and_remove_duplicates s stamp fs) as [[[m sub] f]|] eqn:B;
      [|discriminate].
    simpl.
    destruct (open_write f _ _) as [f'|] eqn:W; [|discriminate].
    simpl. intros [= <- <- <-]. apply open_write_ok in W as (-> & _).
    repeat split. exists f. split; [|reflexivity]. right. split; [assumption|].
    destruct (backup_ok_inv _ _ _ _ _ _ B) as [-> _]. eauto.
  - destruct (open_write fs _ _) as [f'|] eqn:W; [|discriminate].
    simpl. intros [= <- <- <-]. apply open_write_ok in W as (-> & _).
    repeat split. exists fs. split; [|reflexivity]. left. rewrite E. auto.
Qed.


(** X16.  A run that starts from the empty index reports as
    [total_images_scanned] the length of the list [find_all_images]
    returned: every listed path counts, as often as it is listed. *)
Theorem run_counts_discovered
        distance walk report_file config fs stamp now st fs' report :
  run distance walk report_file (new_checker config) fs stamp now
  = Ok (st, fs', report) ->
  total_images_scanned report
  = List.length (find_all_images walk (new_checker config) fs).
Proof.
  intros H. apply run_ok_inv in H as (Hscan & -> & _).
  apply check_duplicates_count in Hscan. simpl in *. exact Hscan.
Qed.




Lemma run_counts_discovered_witness :
  total_images_scanned (generate_report Scenario.after_abc "2024-01-01T00:00:00")
  = List.length
      (find_all_images Scenario.listing (new_checker Scenario.config) Scenario.disk).
Proof.
  apply (run_counts_discovered Imagehash.hamming Scenario.listing json_file
           Scenario.config
           Scenario.disk "20240101_000000" "2024-01-01T00:00:00"
           Scenario.after_abc
           (fs_update Scenario.disk_after_backup report_json
              (File (json_file (generate_report Scenario.after_abc
                                  "2024-01-01T00:00:00"))))
           (generate_report Scenario.after_abc "2024-01-01T00:00:00")).
  vm_compute. reflexivity.
Defined.


Lemma move_all_count self backup_subdir files : forall n fs n' fs',
  move_all self backup_subdir (n, fs) files = Ok (n', fs') ->
  n <= n' <= n + List.length files.
Proof.
  induction files as [|f files IH]; intros n fs n' fs'; cbn [move_all].
  - intros [= <- _]. simpl. lia.
  - destruct (move_duplicate self backup_subdir (n, fs) f) as [[n1 fs1]|] eqn:E;
      cbn [bind]; [|discriminate].
    intros H. apply IH in H.
    assert (n <= n1 <= S n).
    { unfold move_duplicate, bind in E.
      destruct (path_exists fs f); [|injection E as <- _; lia].
      destruct (source_folders self); [discriminate|].
      destruct (relative_to f (parent p)); [|discriminate].
      destruct (mkdir_parents fs _); [|discriminate].
      destruct (shutil_move _ f _); [|discriminate].
      injection E as <- _. lia. }
    simpl. lia.
Qed.

Lemma length_concat_total (d : PyDict.dict (list path)) :
  List.length (List.concat (PyDict.values d)) = total_len d.
Proof.
  unfold total_len, PyDict.values. induction d as [|[k l] d IH]; simpl; auto.
  rewrite length_app. lia.
Qed.

(** X18.  The number of files the mover reports as moved never exceeds
    [exact_duplicates_count], the number of listed duplicates. *)
Theorem moved_count_at_most_listed self stamp now fs moved subdir fs' :
  backup_and_remove_duplicates self stamp fs = Ok (moved, subdir, fs') ->
  moved <= exact_duplicates_count (generate_report self now).
Proof.
  intros H. apply backup_ok_inv in H as (_ & fs0 & _ & Hmove).
  apply move_all_count in Hmove. rewrite length_concat_total in Hmove. simpl. lia.
Qed.

Lemma moved_count_at_most_listed_witness :
  1 <= exact_duplicates_count (generate_report Scenario.after_abc "2024-01-01T00:00:00").
Proof.
  apply (moved_count_at_most_listed Scenario.after_abc "20240101_000000"
           "2024-01-01T00:00:00" Scenario.disk 1
           (Scenario.quarantine "20240101_000000") Scenario.disk_after_backup).
  vm_compute. reflexivity.
Defined.


